(** * Search collection models: query parameters and facet normalisation

    A shallow embedding of [apps/search/src/search/models.py]: the three
    configuration documents ([Facet], [Result], [Sorting]) with their
    [update_from_post] merge, the [get_query_params] builders of [Facet] and
    [Sorting], the facet label/uuid lookups and [augment_solr_response].

    The program is dynamically typed Python 2 working on decoded JSON, so the
    embedding starts with a small layer of Python values and the operations
    the source applies to them (subscription, [.get], truth value, iteration,
    [==], [%s] formatting), each with the exception Python raises. *)

From Stdlib Require Import ZArith List String Bool.
From stdpp Require Import base option list strings gmap pretty.

(** ** Decoded JSON values

    [json.loads] yields [None], booleans, integers, unicode strings, lists and
    dictionaries with string keys.  Numbers are the integers (the
    configuration's [limit], [mincount] and [frequency]); a dictionary nested
    in a value is kept as the list of its items in iteration order, which is
    the order the [for] loops of the source visit them in. *)
#[warnings="-register-all"]
Inductive json : Type :=
| JNull
| JBool (b : bool)
| JNum (n : Z)
| JStr (s : string)
| JArr (items : list json)
| JObj (items : list (string * json)).

(** The exceptions the modelled code can raise. *)
Inductive exn : Type :=
| KeyError (key : json)
| IndexError
| TypeError
| AttributeError
| ValueError.

Inductive result (A : Type) : Type :=
| Ok (a : A)
| Err (e : exn).
Arguments Ok {A} a.
Arguments Err {A} e.

Definition bind {A B} (m : result A) (k : A → result B) : result B :=
  match m with
  | Ok a => k a
  | Err e => Err e
  end.

Notation "'let*' x ':=' m 'in' k" := (bind m (fun x => k))
  (at level 10, x name, m at level 100, k at level 200).

Fixpoint mapM {A B} (f : A → result B) (l : list A) : result (list B) :=
  match l with
  | [] => Ok []
  | x :: l' => let* y := f x in let* ys := mapM f l' in Ok (y :: ys)
  end.

(** A [for] loop whose body updates an accumulator and may raise. *)
Fixpoint foldM {A S} (body : S → A → result S) (s : S) (l : list A) : result S :=
  match l with
  | [] => Ok s
  | x :: l' => let* s' := body s x in foldM body s' l'
  end.

(** Item lookup in a dictionary kept as its item list. *)
Fixpoint assoc {A} (k : string) (items : list (string * A)) : option A :=
  match items with
  | [] => None
  | (k', v) :: items' => if String.eqb k k' then Some v else assoc k items'
  end.

(** ** Python operations on decoded values *)

(** Truth value: [None], [False], [0], [''], [[]] and [{}] are false. *)
Definition py_truthy (v : json) : bool :=
  match v with
  | JNull => false
  | JBool b => b
  | JNum n => negb (n =? 0)%Z
  | JStr s => negb (String.eqb s "")
  | JArr l => negb (Nat.eqb (length l) 0)
  | JObj l => negb (Nat.eqb (length l) 0)
  end.

(** [a and b] and [a or b] return one of their operands. *)
Definition py_and (a b : json) : json := if py_truthy a then b else a.
Definition py_or (a b : json) : json := if py_truthy a then a else b.

(** [a == b].  [True] and [False] compare as the integers 1 and 0; lists
    compare item by item, dictionaries as maps. *)
Fixpoint py_eq (a b : json) {struct a} : bool :=
  match a, b with
  | JNull, JNull => true
  | JBool x, JBool y => Bool.eqb x y
  | JBool x, JNum n => (Z.b2z x =? n)%Z
  | JNum m, JBool y => (m =? Z.b2z y)%Z
  | JNum m, JNum n => (m =? n)%Z
  | JStr s, JStr t => String.eqb s t
  | JArr xs, JArr ys =>
      (fix go (xs ys : list json) : bool :=
         match xs, ys with
         | [], [] => true
         | x :: xs', y :: ys' => py_eq x y && go xs' ys'
         | _, _ => false
         end) xs ys
  | JObj xs, JObj ys =>
      Nat.eqb (length xs) (length ys) &&
      (fix go (xs : list (string * json)) : bool :=
         match xs with
         | [] => true
         | (k, v) :: xs' =>
             match assoc k ys with
             | Some w => py_eq v w
             | None => false
             end && go xs'
         end) xs
  | _, _ => false
  end.

(** An index into a sequence of [len] items: negative indices count from the
    end. *)
Definition py_index (len : nat) (i : Z) : option nat :=
  if (0 <=? i)%Z && (i <? Z.of_nat len)%Z then Some (Z.to_nat i)
  else if (i <? 0)%Z && (- Z.of_nat len <=? i)%Z then Some (Z.to_nat (Z.of_nat len + i))
  else None.

(** Booleans are integers where an index is wanted. *)
Definition as_index (k : json) : option Z :=
  match k with
  | JNum i => Some i
  | JBool b => Some (Z.b2z b)
  | _ => None
  end.

Definition chars (s : string) : list json :=
  map (fun c => JStr (String c EmptyString)) (list_ascii_of_string s).

Definition sequence_item (l : list json) (k : json) : result json :=
  match as_index k with
  | Some i =>
      match py_index (length l) i with
      | Some n => match l !! n with Some x => Ok x | None => Err IndexError end
      | None => Err IndexError
      end
  | None => Err TypeError
  end.

(** [v[k]].  A dictionary raises [KeyError] for a key it does not hold and
    [TypeError] for an unhashable key; a list or a string wants an integer
    index (a string is the sequence of its characters); nothing else can be
    subscripted. *)
Definition py_getitem (v k : json) : result json :=
  match v with
  | JObj items =>
      match k with
      | JStr s => match assoc s items with Some x => Ok x | None => Err (KeyError k) end
      | JArr _ | JObj _ => Err TypeError
      | _ => Err (KeyError k)
      end
  | JArr l => sequence_item l k
  | JStr s => sequence_item (chars s) k
  | _ => Err TypeError
  end.

Notation "v .[ k ]" := (py_getitem v (JStr k)) (at level 1, k at level 200, format "v .[ k ]").

(** [v.get(k)] and [v.get(k, d)]: only dictionaries have the method. *)
Definition py_get_default (v : json) (k : string) (d : json) : result json :=
  match v with
  | JObj items => Ok (default d (assoc k items))
  | _ => Err AttributeError
  end.

Definition py_get (v : json) (k : string) : result json := py_get_default v k JNull.

(** [for x in v]: the items of a list, the keys of a dictionary, the
    characters of a string. *)
Definition py_iter (v : json) : result (list json) :=
  match v with
  | JArr l => Ok l
  | JObj items => Ok (map (fun kv => JStr (fst kv)) items)
  | JStr s => Ok (chars s)
  | _ => Err TypeError
  end.

(** [sep.join(v)]: [v] is iterated and every item has to be a string. *)
Definition py_join (sep : string) (v : json) : result string :=
  let* it := py_iter v in
  let* parts := mapM (fun x => match x with JStr s => Ok s | _ => Err TypeError end) it in
  Ok (String.concat sep parts).

(** [str(v)], as [%s] formats it.  The text of a list or dictionary is its
    [repr], which the model leaves to an implementation of [PyRepr]. *)
Class PyRepr := container_str : json → string.

Definition py_str `{PyRepr} (v : json) : string :=
  match v with
  | JNull => "None"
  | JBool true => "True"
  | JBool false => "False"
  | JNum n => pretty n
  | JStr s => s
  | _ => container_str v
  end.

(** The top-level documents ([json.loads(self.data)], the engine's response,
    the [facets] argument) are dictionaries used as maps. *)
Abbreviation doc := (gmap string json).

Definition dict_get (d : doc) (k : string) : json := default JNull (d !! k).
Definition dict_get_default (d : doc) (k : string) (dflt : json) : json := default dflt (d !! k).

(** [d[k]] on a top-level dictionary. *)
Definition dict_getitem (d : doc) (k : string) : result json :=
  match d !! k with
  | Some v => Ok v
  | None => Err (KeyError (JStr k))
  end.

(** A query parameter: the pair [(name, value)] of the source's tuples. *)
Abbreviation param := (string * json)%type.

(** ** The merge loop of [update_from_post]

    [Facet], [Result] and [Sorting] each carry the same loop over their own
    [_ATTRIBUTES].  The instance's [data] column holds [json.dumps] of a
    dictionary; the model keeps the decoded dictionary, which is what
    [json.loads(self.data)] returns.  [post_data] maps a name to the JSON text
    posted for it ([None] when the entry is null), and [json.loads] is the
    JSON library's parser, raising [ValueError] on malformed text. *)
Class JsonLoads := json_loads : string → result json.

Abbreviation post := (gmap string (option string)).

(** [post_data.get(attr)] *)
Definition post_get (post_data : post) (attr : string) : option string :=
  match post_data !! attr with
  | Some (Some text) => Some text
  | _ => None
  end.

Section Merge.
Context `{JsonLoads}.

(** One iteration: [if post_data.get(attr) is not None:
    data_dict[attr] = json.loads(post_data[attr])]. *)
Definition merge_attr (post_data : post) (data_dict : doc) (attr : string) : result doc :=
  match post_get post_data attr with
  | Some text => let* v := json_loads text in Ok (<[attr := v]> data_dict)
  | None => Ok data_dict
  end.

(** The method as a transition of [self.data]: the new stored dictionary
    and the outcome.  An exception leaves [self.data] as it was, since the
    assignment is the last statement. *)
Definition merge_post (attrs : list string) (post_data : post) (data : doc) : doc * result unit :=
  match foldM (merge_attr post_data) data attrs with
  | Ok data_dict => (data_dict, Ok tt)
  | Err e => (data, Err e)
  end.
End Merge.

(** ** [Facet] *)
Module Facet.

Definition _ATTRIBUTES : list string := ["properties"; "fields"; "ranges"; "dates"; "order"].

Definition update_from_post `{JsonLoads} (post_data : post) (data : doc) : doc * result unit :=
  merge_post _ATTRIBUTES post_data data.

Section QueryParams.
Context `{PyRepr}.

(** [('facet.field', field_facet['field'])] *)
Definition field_facet_param (field_facet : json) : result param :=
  let* f := field_facet.["field"] in
  Ok ("facet.field", f).

(** The four parameters of one entry of [ranges]. *)
Definition range_facets (field_facet : json) : result (list param) :=
  let* f := field_facet.["field"] in
  let* start := field_facet.["start"] in
  let* end_ := field_facet.["end"] in
  let* gap := field_facet.["gap"] in
  Ok [ ("facet.range", f);
       ("f." +:+ py_str f +:+ ".facet.range.start", start);
       ("f." +:+ py_str f +:+ ".facet.range.end", end_);
       ("f." +:+ py_str f +:+ ".facet.range.gap", gap) ].

(** The four parameters of one entry of [dates].  [start], [end] and
    [gap] are read first; the three date-math strings are formatted in
    the order of the tuple, each reading its keys left to right. *)
Definition date_facets (field_facet : json) : result (list param) :=
  let* start := field_facet.["start"] in
  let* end_ := field_facet.["end"] in
  let* gap := field_facet.["gap"] in
  let* f := field_facet.["field"] in
  let* start_frequency := start.["frequency"] in
  let* start_unit := start.["unit"] in
  let* rounder := gap.["unit"] in
  let* end_frequency := end_.["frequency"] in
  let* end_unit := end_.["unit"] in
  let* gap_frequency := gap.["frequency"] in
  let* gap_unit := gap.["unit"] in
  Ok [ ("facet.date", f);
       ("f." +:+ py_str f +:+ ".facet.date.start",
        JStr ("NOW-" +:+ py_str start_frequency +:+ py_str start_unit +:+ "/" +:+ py_str rounder));
       ("f." +:+ py_str f +:+ ".facet.date.end",
        JStr ("NOW-" +:+ py_str end_frequency +:+ py_str end_unit));
       ("f." +:+ py_str f +:+ ".facet.date.gap",
        JStr ("+" +:+ py_str gap_frequency +:+ py_str gap_unit)) ].

(** [for field_facet in entries: params += facets_of(field_facet)] *)
Definition extend_params (facets_of : json → result (list param))
    (params : list param) (field_facet : json) : result (list param) :=
  let* more := facets_of field_facet in
  Ok (params ++ more).

Definition get_query_params (data_dict : doc) : result (list param) :=
  let properties := dict_get data_dict "properties" in
  let* isEnabled := py_get properties "isEnabled" in
  let* limit := py_get properties "limit" in
  let* mincount := py_get properties "mincount" in
  let* sort := py_get properties "sort" in
  let params :=
    [ ("facet", py_or (py_and isEnabled (JStr "true")) (JStr "false"));
      ("facet.limit", limit);
      ("facet.mincount", mincount);
      ("facet.sort", sort) ] in
  let* params :=
    if py_truthy (dict_get data_dict "fields") then
      let* fields := dict_getitem data_dict "fields" in
      let* it := py_iter fields in
      let* field_facets := mapM field_facet_param it in
      Ok (params ++ field_facets)
    else Ok params in
  let* params :=
    if py_truthy (dict_get data_dict "ranges") then
      let* ranges := dict_getitem data_dict "ranges" in
      let* it := py_iter ranges in
      foldM (extend_params range_facets) params it
    else Ok params in
  let* params :=
    if py_truthy (dict_get data_dict "dates") then
      let* dates := dict_getitem data_dict "dates" in
      let* it := py_iter dates in
      foldM (extend_params date_facets) params it
    else Ok params in
  Ok params.
End QueryParams.

End Facet.

(** ** [Result] *)
Module Result.

Definition _ATTRIBUTES : list string := ["properties"; "template"; "highlighting"; "extracode"].

Definition update_from_post `{JsonLoads} (post_data : post) (data : doc) : doc * result unit :=
  merge_post _ATTRIBUTES post_data data.

Definition get_query_params (data_dict : doc) : result (list param) :=
  let params := [] in
  if py_truthy (dict_get data_dict "highlighting") then
    let* highlighting_enabled :=
      py_get (dict_get_default data_dict "properties" (JObj [])) "highlighting_enabled" in
    let* fl := py_join "," (dict_get data_dict "highlighting") in
    Ok (params ++ [ ("hl", py_or (py_and highlighting_enabled (JStr "true")) (JStr "false"));
                    ("hl.fl", JStr fl) ])
  else Ok params.

End Result.

(** ** [Sorting] *)
Module Sorting.

Definition _ATTRIBUTES : list string := ["properties"; "fields"].

Definition update_from_post `{JsonLoads} (post_data : post) (data : doc) : doc * result unit :=
  merge_post _ATTRIBUTES post_data data.

Section QueryParams.
Context `{PyRepr}.

(** ['%s %s' % (field['field'], field['asc'] and 'asc' or 'desc')] *)
Definition sort_term (field : json) : result string :=
  let* f := field.["field"] in
  let* asc := field.["asc"] in
  Ok (py_str f +:+ " " +:+ py_str (py_or (py_and asc (JStr "asc")) (JStr "desc"))).

Definition get_query_params (data_dict : doc) : result (list param) :=
  let params := [] in
  let* is_enabled := py_get (dict_get_default data_dict "properties" (JObj [])) "is_enabled" in
  if py_truthy (py_or (py_and is_enabled (JStr "true")) (JStr "false")) then
    if py_truthy (dict_get data_dict "fields") then
      let* it := py_iter (dict_get data_dict "fields") in
      let* fields := mapM sort_term it in
      Ok (params ++ [("sort", JStr (String.concat "," fields))])
    else Ok params
  else Ok params.
End QueryParams.

End Sorting.

(** ** [Collection] and its manager *)
Module Collection.

(** The three configuration documents a collection refers to, each as the
    decoded [data] of its row. *)
Record t : Type := { facets : doc; result_ : doc; sorting : doc }.

(** [self.facets.get_query_params() + self.result.get_query_params()
     + self.sorting.get_query_params()] *)
Definition get_query `{PyRepr} (self : t) : result (list param) :=
  let* facet_params := Facet.get_query_params (facets self) in
  let* result_params := Result.get_query_params (result_ self) in
  let* sort_params := Sorting.get_query_params (sorting self) in
  Ok ((facet_params ++ result_params) ++ sort_params).

End Collection.

Module CollectionManager.

(** The documents [get_or_create] stores for a collection it has to create.
    The two long literals of the result document, its [template] and its
    [extracode], are arguments. *)
Definition new_facets : doc :=
  {[ "properties" := JObj [("isEnabled", JBool false); ("limit", JNum 10);
                           ("mincount", JNum 1); ("sort", JStr "count")];
     "ranges" := JArr [];
     "fields" := JArr [];
     "dates" := JArr [] ]}.

Definition new_result (template extracode : string) : doc :=
  {[ "template" := JStr template;
     "highlighting" := JArr [];
     "properties" := JObj [("highlighting_enabled", JBool false)];
     "extracode" := JStr extracode ]}.

Definition new_sorting : doc :=
  {[ "properties" := JObj [("is_enabled", JBool false)]; "fields" := JArr [] ]}.

Definition new_collection (template extracode : string) : Collection.t :=
  {| Collection.facets := new_facets;
     Collection.result_ := new_result template extracode;
     Collection.sorting := new_sorting |}.

End CollectionManager.

(** ** Facet label and uuid lookup *)

(** The loop [for fld in entries: if fld['field'] == field: x = fld[attr]],
    started from [x = init]: a later match overwrites an earlier one. *)
Definition scan_step (attr : string) (field : json) (x : json) (fld : json) : result json :=
  let* f := fld.["field"] in
  if py_eq f field then fld.[attr] else Ok x.

Definition scan (attr : string) (field : json) (init : json) (entries : json) : result json :=
  let* it := py_iter entries in
  foldM (scan_step attr field) init it.

Definition get_facet_field_label (field : json) (type : string) (facets : doc) : result json :=
  let label := field in
  if String.eqb type "field" then
    let* entries := dict_getitem facets "fields" in scan "label" field label entries
  else if String.eqb type "range" then
    let* entries := dict_getitem facets "ranges" in scan "label" field label entries
  else if String.eqb type "date" then
    let* entries := dict_getitem facets "dates" in scan "label" field label entries
  else Ok label.

Definition get_facet_field_uuid (field : json) (type : string) (facets : doc) : result json :=
  let uuid := JStr "" in
  if String.eqb type "field" then
    let* entries := dict_getitem facets "fields" in scan "uuid" field uuid entries
  else if String.eqb type "range" then
    let* entries := dict_getitem facets "ranges" in scan "uuid" field uuid entries
  else if String.eqb type "date" then
    let* entries := dict_getitem facets "dates" in scan "uuid" field uuid entries
  else Ok uuid.

(** ** Response normalisation *)

(** The keys of the local dictionary [normalized_facets].  Python hashes
    [None], integers and strings; [True] and [False] are the keys 1 and 0;
    lists and dictionaries cannot be keys. *)
Inductive pykey : Type :=
| KNone
| KInt (n : Z)
| KStr (s : string).

#[global] Instance pykey_eq_dec : EqDecision pykey.
Proof. solve_decision. Defined.

Definition pykey_enc (k : pykey) : unit + Z + string :=
  match k with
  | KNone => inl (inl ())
  | KInt n => inl (inr n)
  | KStr s => inr s
  end.

Definition pykey_dec (x : unit + Z + string) : pykey :=
  match x with
  | inl (inl _) => KNone
  | inl (inr n) => KInt n
  | inr s => KStr s
  end.

#[global] Instance pykey_countable : Countable pykey.
Proof. refine (inj_countable' pykey_enc pykey_dec _). by intros []. Defined.

Definition hash_key (v : json) : option pykey :=
  match v with
  | JNull => Some KNone
  | JBool b => Some (KInt (Z.b2z b))
  | JNum n => Some (KInt n)
  | JStr s => Some (KStr s)
  | JArr _ | JObj _ => None
  end.

(** The two locals the loops fill: the dictionary [normalized_facets] and the
    list [default_facets]. *)
Abbreviation collected := (gmap pykey json * list json)%type.

(** [if uuid == '': default_facets.append(facet)
     else: normalized_facets[uuid] = facet] *)
Definition place (uuid facet : json) (st : collected) : result collected :=
  let '(normalized_facets, default_facets) := st in
  if py_eq uuid (JStr "") then Ok (normalized_facets, default_facets ++ [facet])
  else
    match hash_key uuid with
    | Some k => Ok (<[k := facet]> normalized_facets, default_facets)
    | None => Err TypeError
    end.

(** The [facet] dictionary and the [uuid] that the body of the loop over
    [facet_fields] computes for [cat]. *)
Definition field_facet (facet_fields : json) (facets : doc) (cat : json) : result (json * json) :=
  let* label := get_facet_field_label cat "field" facets in
  let* counts := py_getitem facet_fields cat in
  let facet := JObj [("field", cat); ("type", JStr "field"); ("label", label); ("counts", counts)] in
  let* uuid := get_facet_field_uuid cat "field" facets in
  Ok (facet, uuid).

(** The same for the loop over [facet_ranges]. *)
Definition range_facet (facet_ranges : json) (facets : doc) (cat : json) : result (json * json) :=
  let* label := get_facet_field_label cat "range" facets in
  let* r := py_getitem facet_ranges cat in
  let* counts := r.["counts"] in
  let* start := r.["start"] in
  let* end_ := r.["end"] in
  let* gap := r.["gap"] in
  let facet := JObj [("field", cat); ("type", JStr "range"); ("label", label);
                     ("counts", counts); ("start", start); ("end", end_); ("gap", gap)] in
  let* uuid := get_facet_field_uuid cat "range" facets in
  Ok (facet, uuid).

(** [d.iteritems()] *)
Definition py_iteritems (d : json) : result (list (string * json)) :=
  match d with
  | JObj items => Ok items
  | _ => Err AttributeError
  end.

(** The buckets of a date facet flattened to [date1, count1, date2, ...],
    the keys [start], [end] and [gap] left out. *)
Definition flatten_counts (items : list (string * json)) : list json :=
  flat_map (fun '(date, count) =>
              if String.eqb date "start" || String.eqb date "end" || String.eqb date "gap"
              then [] else [JStr date; count]) items.

(** The same for the loop over [facet_dates]; [counts] is set last. *)
Definition date_facet (facet_dates : json) (facets : doc) (cat : json) : result (json * json) :=
  let* label := get_facet_field_label cat "date" facets in
  let* d := py_getitem facet_dates cat in
  let* start := d.["start"] in
  let* end_ := d.["end"] in
  let* gap := d.["gap"] in
  let* items := py_iteritems d in
  let counts := flatten_counts items in
  let facet := JObj [("field", cat); ("type", JStr "date"); ("label", label);
                     ("start", start); ("end", end_); ("gap", gap); ("counts", JArr counts)] in
  let* uuid := get_facet_field_uuid cat "date" facets in
  Ok (facet, uuid).

(** One iteration of a loop: build the facet and its uuid, then place it. *)
Definition visit (build : json → result (json * json)) (st : collected) (cat : json) : result collected :=
  let* fu := build cat in
  place fu.2 fu.1 st.

(** [if category: for cat in category: ...] *)
Definition each_category (build : json → result (json * json))
    (category : json) (st : collected) : result collected :=
  if py_truthy category then
    let* cats := py_iter category in
    foldM (visit build) st cats
  else Ok st.

(** Truth value of a top-level dictionary. *)
Definition doc_truthy (d : doc) : bool := negb (Nat.eqb (size d) 0).

(** The part of [augment_solr_response] between the initialisation of the
    locals and the final loop: it reads [response] and fills the locals. *)
Definition collect_facets (response facets : doc) : result collected :=
  let st : collected := (∅, []) in
  if doc_truthy response && py_truthy (dict_get response "facet_counts") then
    let* facet_counts := dict_getitem response "facet_counts" in
    let* facet_fields := facet_counts.["facet_fields"] in
    let* st := each_category (field_facet facet_fields facets) facet_fields st in
    let* facet_ranges := facet_counts.["facet_ranges"] in
    let* st := each_category (range_facet facet_ranges facets) facet_ranges st in
    let* facet_dates := facet_counts.["facet_dates"] in
    let* st := each_category (date_facet facet_dates facets) facet_dates st in
    Ok st
  else Ok st.

(** [try: out.append(normalized_facets[ordered_uuid]) except: pass] *)
Definition append_ordered (normalized_facets : gmap pykey json)
    (out : list json) (ordered_uuid : json) : list json :=
  match hash_key ordered_uuid ≫= (normalized_facets !!.) with
  | Some facet => out ++ [facet]
  | None => out
  end.

(** The response is a mutable dictionary that the function receives by
    reference and updates in place.  The heap maps references to the state of
    the dictionaries they denote ([h !!! r] reads the one at [r]); the
    function is a heap transition that also yields the reference it returns
    or the exception it raises. *)
Definition loc : Type := nat.
Abbreviation heap := (gmap loc doc).

(** [obj[key] = v] on the dictionary at [obj]. *)
Definition setitem (obj : loc) (key : string) (v : json) (h : heap) : heap :=
  <[obj := <[key := v]> (h !!! obj)]> h.

(** [augmented] is another name for the object at [response].  The list
    stored under [normalized_facets] is empty until the final loop, which no
    exception can interrupt once it has started; [out] is what the loop and
    the [extend] leave in it. *)
Definition augment_solr_response (response : loc) (facets : doc) (h : heap) : heap * result loc :=
  let augmented := response in
  let h := setitem augmented "normalized_facets" (JArr []) h in
  match collect_facets (h !!! response) facets with
  | Err e => (h, Err e)
  | Ok (normalized_facets, default_facets) =>
      match py_iter (dict_get_default facets "order" (JArr [])) with
      | Err e => (h, Err e)
      | Ok order =>
          let out := fold_left (append_ordered normalized_facets) order [] in
          let out := if negb (Nat.eqb (length default_facets) 0) then out ++ default_facets else out in
          (setitem augmented "normalized_facets" (JArr out) h, Ok augmented)
      end
  end.

(** ** Implementations used to run the model

    [scalar_repr] serves documents whose formatted values are scalars, where
    the text of a container is never asked for; [loads_literals] parses the
    few JSON literals the examples post. *)
Definition scalar_repr : PyRepr := fun _ => "<container>".

Definition loads_literals : JsonLoads := fun text =>
  if String.eqb text "null" then Ok JNull
  else if String.eqb text "true" then Ok (JBool true)
  else if String.eqb text "false" then Ok (JBool false)
  else if String.eqb text "[]" then Ok (JArr [])
  else if String.eqb text "{}" then Ok (JObj [])
  else Err ValueError.

(** * Specification vocabulary and example documents

    The predicates and functions in which the properties are stated, and the
    documents on which they are run. *)

Section MergeSpec.
Context `{JsonLoads}.
Implicit Types (post_data : post) (data : doc) (attrs : list string).

(** Every text posted for an attribute of [attrs] is valid JSON. *)
Definition parses attrs post_data : Prop :=
  ∀ a text, a ∈ attrs → post_get post_data a = Some text → ∃ v, json_loads text = Ok v.

(** [data'] is [data] with the posted attributes of [attrs] overwritten by
    their parsed texts and everything else kept. *)
Definition merged attrs post_data data (data' : doc) : Prop :=
  (∀ k text v, k ∈ attrs → post_get post_data k = Some text → json_loads text = Ok v →
     data' !! k = Some v) ∧
  (∀ k, k ∉ attrs ∨ post_get post_data k = None → data' !! k = data !! k).
End MergeSpec.

(** A sort configuration with [is_enabled] false. *)
Definition disabled_sort : doc :=
  {[ "properties" := JObj [("is_enabled", JBool false)];
     "fields" := JArr [JObj [("field", JStr "date"); ("asc", JBool false)]] ]}.

(** A partial update that posts [fields] only. *)
Definition only_fields : post := {[ "fields" := Some "[]" ]}.

(** A stored facet configuration. *)
Definition stored_facets : doc :=
  {[ "properties" := JObj [("isEnabled", JBool false)];
     "fields" := JArr [JObj [("field", JStr "a")]];
     "ranges" := JArr []; "dates" := JArr []; "order" := JArr [JStr "u1"] ]}.

(** The three facet kinds and what the source calls them. *)
Inductive facet_kind : Type := KField | KRange | KDate.

Definition kind_name (k : facet_kind) : string :=
  match k with KField => "field" | KRange => "range" | KDate => "date" end.

Definition kind_entries (k : facet_kind) : string :=
  match k with KField => "fields" | KRange => "ranges" | KDate => "dates" end.

(** [fld] is an entry for [field]: the test of the scan. *)
Definition matches (field fld : json) : bool :=
  match fld.["field"] with
  | Ok f => py_eq f field
  | Err _ => false
  end.

(** [v] is a dictionary holding every key of [keys]. *)
Definition has_keys (keys : list string) (v : json) : bool :=
  match v with
  | JObj items => forallb (fun k => bool_decide (is_Some (assoc k items))) keys
  | _ => false
  end.

(** An entry of [fields], [ranges] or [dates] as the data model has it. *)
Definition facet_entry : json → bool := has_keys ["field"; "label"; "uuid"].

(** A configuration in which two field entries carry the field [tag]. *)
Definition two_fields : doc :=
  {[ "fields" := JArr [ JObj [("field", JStr "tag"); ("label", JStr "Tag"); ("uuid", JStr "u1")];
                        JObj [("field", JStr "lang"); ("label", JStr "Language"); ("uuid", JStr "u2")];
                        JObj [("field", JStr "tag"); ("label", JStr "Topic"); ("uuid", JStr "u3")] ];
     "ranges" := JArr []; "dates" := JArr [] ]}.



(** The date entry of the specification's example. *)
Definition created_at_entry : json :=
  JObj [ ("field", JStr "created_at"); ("label", JStr "Created"); ("uuid", JStr "u1");
         ("start", JObj [("frequency", JNum 7); ("unit", JStr "DAYS")]);
         ("end", JObj [("frequency", JNum 1); ("unit", JStr "DAYS")]);
         ("gap", JObj [("frequency", JNum 1); ("unit", JStr "DAYS")]) ].




(** A range entry without [field], and a complete one. *)
Definition range_without_field : json :=
  JObj [("label", JStr "Age"); ("uuid", JStr "u1"); ("start", JNum 0); ("end", JNum 100); ("gap", JNum 10)].

Definition range_complete : json :=
  JObj [("field", JStr "price"); ("label", JStr "Price"); ("uuid", JStr "u2");
        ("start", JNum 0); ("end", JNum 50); ("gap", JNum 5)].

(** The [properties] of an enabled facet configuration. *)
Definition facet_properties : json :=
  JObj [("isEnabled", JBool true); ("limit", JNum 10); ("mincount", JNum 1); ("sort", JStr "count")].




(** A record is a facet dictionary with its resolved uuid, as built by one
    iteration of one of the three loops. *)
Abbreviation record := (json * json)%type.

(** Records of one category, in the order the loop meets them. *)
Definition category_records (build : json → result record) (category : json) : result (list record) :=
  if py_truthy category then
    let* cats := py_iter category in
    mapM build cats
  else Ok [].

(** All records of a response in discovery order: field facets, then range
    facets, then date facets. *)
Definition discovered (response facets : doc) : result (list record) :=
  let facet_counts := dict_get response "facet_counts" in
  if py_truthy facet_counts then
    let* facet_fields := facet_counts.["facet_fields"] in
    let* fields := category_records (field_facet facet_fields facets) facet_fields in
    let* facet_ranges := facet_counts.["facet_ranges"] in
    let* ranges := category_records (range_facet facet_ranges facets) facet_ranges in
    let* facet_dates := facet_counts.["facet_dates"] in
    let* dates := category_records (date_facet facet_dates facets) facet_dates in
    Ok (fields ++ ranges ++ dates)
  else Ok [].

(** A record whose resolved uuid is the empty string. *)
Definition is_default (r : record) : bool := py_eq r.2 (JStr "").

(** The default facets: the records with an empty uuid, in discovery order. *)
Definition defaults (recs : list record) : list json :=
  map fst (List.filter is_default recs).

(** The record keyed by [k]: the last one discovered whose uuid is not empty
    and is the key [k]. *)
Definition keyed (k : pykey) (recs : list record) : option json :=
  fst <$> find (fun r => negb (is_default r) && bool_decide (hash_key r.2 = Some k)) (rev recs).

(** For each uuid of [order], in order, the record keyed by it, if any. *)
Definition ordered (order : list json) (recs : list record) : list json :=
  omap (fun u => hash_key u ≫= fun k => keyed k recs) order.

(** [place] without the exception, for records with hashable uuids. *)
Definition placed (st : collected) (r : record) : collected :=
  if is_default r then (st.1, st.2 ++ [r.1])
  else match hash_key r.2 with
       | Some k => (<[k := r.1]> st.1, st.2)
       | None => st
       end.

(** The example of the specification: [order] is [u2, u1], the response has
    facets for the fields configured under [u1] and [u2] and one facet [f3]
    that the configuration does not know. *)
Definition ordered_config : doc :=
  {[ "properties" := facet_properties;
     "fields" := JArr [ JObj [("field", JStr "f1"); ("label", JStr "First"); ("uuid", JStr "u1")];
                        JObj [("field", JStr "f2"); ("label", JStr "Second"); ("uuid", JStr "u2")] ];
     "ranges" := JArr []; "dates" := JArr [];
     "order" := JArr [JStr "u2"; JStr "u1"] ]}.

Definition faceted_response : doc :=
  {[ "facet_counts" :=
       JObj [ ("facet_fields", JObj [ ("f1", JArr [JStr "a"; JNum 3]);
                                      ("f3", JArr [JStr "c"; JNum 1]);
                                      ("f2", JArr [JStr "b"; JNum 2]) ]);
              ("facet_ranges", JObj []);
              ("facet_dates", JObj []) ] ]}.

(** A normalised field facet. *)
Definition facet_of (field label : string) (counts : list json) : json :=
  JObj [("field", JStr field); ("type", JStr "field"); ("label", JStr label); ("counts", JArr counts)].

(** A response whose [facet_counts] has field facets only. *)
Definition fields_only_response : doc :=
  {[ "facet_counts" := JObj [("facet_fields", JObj [("f3", JArr [JStr "c"; JNum 1])])] ]}.

(** A response without [facet_counts]. *)
Definition plain_response : doc :=
  {[ "responseHeader" := JObj [("status", JNum 0)];
     "response" := JObj [("numFound", JNum 0); ("docs", JArr [])] ]}.

(** ** Vocabulary of the further properties *)

(** The first four parameters of the facet builder. *)
Definition base_params (isEnabled limit mincount sort : json) : list param :=
  [ ("facet", JStr (if py_truthy isEnabled then "true" else "false"));
    ("facet.limit", limit);
    ("facet.mincount", mincount);
    ("facet.sort", sort) ].

(** The items of a list-valued attribute; an absent or null attribute has
    none. *)
Definition listed (d : doc) (k : string) (l : list json) : Prop :=
  d !! k = Some (JArr l) ∨ (l = [] ∧ (d !! k = None ∨ d !! k = Some JNull)).

(** A range-facet entry with its four components. *)
Definition range_entry (e field start end_ gap : json) : Prop :=
  ∃ items,
    e = JObj items ∧
    assoc "field" items = Some field ∧
    assoc "start" items = Some start ∧
    assoc "end" items = Some end_ ∧
    assoc "gap" items = Some gap.

(** The parameters of a range facet: the field, then start, end and gap
    scoped to the field. *)
Definition range_params `{PyRepr} (field start end_ gap : json) : list param :=
  [ ("facet.range", field);
    ("f." +:+ py_str field +:+ ".facet.range.start", start);
    ("f." +:+ py_str field +:+ ".facet.range.end", end_);
    ("f." +:+ py_str field +:+ ".facet.range.gap", gap) ].

(** A configuration with two complete range entries and one date entry. *)
Definition two_ranges : doc :=
  {[ "properties" := facet_properties;
     "fields" := JArr [JObj [("field", JStr "tag"); ("label", JStr "Tag"); ("uuid", JStr "u1")]];
     "ranges" := JArr [ range_complete;
                        JObj [("field", JStr "age"); ("start", JNum 0); ("end", JNum 100); ("gap", JNum 10)] ];
     "dates" := JArr [created_at_entry] ]}.

(** A result document that highlights two fields. *)
Definition highlighted_result : doc :=
  {[ "template" := JStr "{{text}}";
     "highlighting" := JArr [JStr "text"; JStr "title"];
     "properties" := JObj [("highlighting_enabled", JBool true)];
     "extracode" := JStr "" ]}.

(** A sort configuration with two fields (the example of the
    specification). *)
Definition two_sort_fields : doc :=
  {[ "properties" := JObj [("is_enabled", JBool true)];
     "fields" := JArr [ JObj [("field", JStr "date"); ("asc", JBool false)];
                        JObj [("field", JStr "score"); ("asc", JBool true)] ] ]}.




(** The value a posted text stands for. *)
Definition parsed `{JsonLoads} (text : string) : option json :=
  match json_loads text with
  | Ok v => Some v
  | Err _ => None
  end.

(** What [post_data] posts for [k], if [k] is one of [attrs]. *)
Definition posted (attrs : list string) (post_data : post) (k : string) : option string :=
  if decide (k ∈ attrs) then post_get post_data k else None.

(** An update whose [fields] text is not JSON. *)
Definition broken_update : post := {[ "properties" := Some "{}"; "fields" := Some "[1," ]}.

(** An update that posts [order] and a name no class knows. *)
Definition order_update : post := {[ "order" := Some "[]"; "colour" := Some "true" ]}.

(** A configuration whose [dates] list is missing and whose [ranges] list
    holds an entry without [field]. *)
Definition damaged_config : doc :=
  {[ "fields" := JArr [JObj [("field", JStr "tag")]];
     "ranges" := JArr [range_complete; range_without_field] ]}.

(** An item of a date facet that is a bucket, not one of the reserved keys
    [start], [end] and [gap]. *)
Definition is_bucket (kv : string * json) : bool :=
  negb (String.eqb kv.1 "start" || String.eqb kv.1 "end" || String.eqb kv.1 "gap").

(** The date facet of the engine for [created_at]. *)
Definition created_at_counts : json :=
  JObj [ ("2013-01-01T00:00:00Z", JNum 4); ("gap", JStr "+1DAY");
         ("2013-01-02T00:00:00Z", JNum 0); ("start", JStr "2013-01-01T00:00:00Z");
         ("end", JStr "2013-01-03T00:00:00Z") ].

(** The normalised facet of a field that the configuration does not
    know. *)
Definition unconfigured_facet (kv : string * json) : json :=
  JObj [("field", JStr kv.1); ("type", JStr "field"); ("label", JStr kv.1); ("counts", kv.2)].

(** A response with field facets only, as the engine sends it. *)
Definition field_facets_response : doc :=
  {[ "responseHeader" := JObj [("status", JNum 0)];
     "facet_counts" :=
       JObj [ ("facet_queries", JObj []);
              ("facet_fields", JObj [ ("lang", JArr [JStr "en"; JNum 7; JStr "fr"; JNum 2]);
                                      ("tag", JArr [JStr "news"; JNum 5]) ]);
              ("facet_dates", JObj []);
              ("facet_ranges", JObj []) ] ]}.

(** A configuration that gives the field [tag] and the range [price] the
    same uuid. *)
Definition shared_uuid_config : doc :=
  {[ "fields" := JArr [JObj [("field", JStr "tag"); ("label", JStr "Tag"); ("uuid", JStr "u1")]];
     "ranges" := JArr [JObj [("field", JStr "price"); ("label", JStr "Price"); ("uuid", JStr "u1")]];
     "dates" := JArr [];
     "order" := JArr [JStr "u1"] ]}.

Definition shared_uuid_response : doc :=
  {[ "facet_counts" :=
       JObj [ ("facet_fields", JObj [("tag", JArr [JStr "news"; JNum 5])]);
              ("facet_ranges", JObj [("price", JObj [ ("counts", JArr [JStr "0"; JNum 3]);
                                                      ("start", JNum 0); ("end", JNum 50);
                                                      ("gap", JNum 5) ])]);
              ("facet_dates", JObj []) ] ]}.

(** * Properties *)

(** ** The error monad and the loops *)

Lemma bind_Ok {A B} (m : result A) (k : A → result B) (b : B) :
  bind m k = Ok b → ∃ a, m = Ok a ∧ k a = Ok b.
Proof. destruct m as [a|e]; simpl; [eauto | discriminate]. Qed.

Lemma foldM_app {A S} (body : S → A → result S) (s : S) (l1 l2 : list A) :
  foldM body s (l1 ++ l2) = let* s' := foldM body s l1 in foldM body s' l2.
Proof.
  revert s. induction l1 as [|x l1 IH]; intros s; simpl; [done|].
  destruct (body s x) as [s'|e]; simpl; [apply IH | done].
Qed.

(** ** The sort parameters *)

(** The guard of [Sorting.get_query_params] holds whatever [is_enabled] is:
    [x and 'true' or 'false'] is one of two non-empty strings. *)
Lemma sort_gate_always_open (is_enabled : json) :
  py_truthy (py_or (py_and is_enabled (JStr "true")) (JStr "false")) = true.
Proof.
  unfold py_or, py_and. destruct (py_truthy is_enabled) eqn:E; simpl; [done|].
  by rewrite E.
Qed.

(** The direction token of a field is decided by its [asc] flag. *)
Lemma sort_term_bool `{PyRepr} (items : list (string * json)) (f : string) (asc : bool) :
  assoc "field" items = Some (JStr f) →
  assoc "asc" items = Some (JBool asc) →
  Sorting.sort_term (JObj items) = Ok (f +:+ " " +:+ (if asc then "asc" else "desc")).
Proof.
  intros Hf Ha. unfold Sorting.sort_term. simpl. rewrite Hf. simpl. rewrite Ha. simpl.
  by destruct asc.
Qed.

(** C1 (fails on the code): the sort parameter is to be emitted only when
    [is_enabled] is true and [fields] is non-empty.  On a configuration with
    [is_enabled] false and one field, the builder still emits
    [sort=date desc]. *)
Theorem C1_sort_emitted_when_disabled `{PyRepr} :
  py_get (dict_get_default disabled_sort "properties" (JObj [])) "is_enabled" = Ok (JBool false) ∧
  Sorting.get_query_params disabled_sort = Ok [("sort", JStr "date desc")].
Proof. split; reflexivity. Qed.

(** Whatever [is_enabled] holds, a non-empty [fields] list yields the single
    [sort] parameter, and an empty one yields none. *)
Lemma sorting_params_ignore_flag `{PyRepr} (data_dict : doc)
    (props : list (string * json)) (entries : list json) (terms : list string) :
  data_dict !! "properties" = Some (JObj props) →
  data_dict !! "fields" = Some (JArr entries) →
  mapM Sorting.sort_term entries = Ok terms →
  Sorting.get_query_params data_dict =
    Ok (match entries with
        | [] => []
        | _ :: _ => [("sort", JStr (String.concat "," terms))]
        end).
Proof.
  intros Hp Hf Ht. unfold Sorting.get_query_params, dict_get_default, dict_get.
  rewrite Hp, Hf. simpl. rewrite sort_gate_always_open.
  destruct entries as [|e entries]; simpl; [done|].
  simpl in Ht. by rewrite Ht.
Qed.

(** ** The merge of [update_from_post] *)

Section MergeFacts.
Context `{JsonLoads}.
Implicit Types (post_data : post) (data : doc) (attrs : list string).

(** What the loop stores under [k], for a run that raised nothing. *)
Lemma merge_lookup post_data attrs data data' (k : string) :
  foldM (merge_attr post_data) data attrs = Ok data' →
  data' !! k =
    match (if decide (k ∈ attrs) then post_get post_data k else None) with
    | Some text => match json_loads text with Ok v => Some v | Err _ => None end
    | None => data !! k
    end.
Proof.
  revert data. induction attrs as [|a attrs IH]; intros data Hrun; simpl in Hrun.
  - injection Hrun as <-. by rewrite decide_False by apply not_elem_of_nil.
  - apply bind_Ok in Hrun as (d1 & Hstep & Hrest).
    rewrite (IH _ Hrest). clear IH Hrest. unfold merge_attr in Hstep.
    assert (d1 !! k =
              match (if decide (k = a) then post_get post_data k else None) with
              | Some text => match json_loads text with Ok v => Some v | Err _ => None end
              | None => data !! k
              end) as ->.
    { destruct (decide (k = a)) as [->|Hne];
        (destruct (post_get post_data a) as [text|];
         [destruct (json_loads text) as [v|e]; simpl in Hstep; [|done];
          injection Hstep as <-
         |by injection Hstep as <-]).
      - by rewrite lookup_insert_eq.
      - by rewrite lookup_insert_ne. }
    destruct (decide (k ∈ attrs)) as [Hin|Hnin], (decide (k = a)) as [Heq|Hne].
    + rewrite decide_True by (apply elem_of_cons; by left).
      by destruct (post_get post_data k).
    + rewrite decide_True by (apply elem_of_cons; by right).
      by destruct (post_get post_data k).
    + by rewrite decide_True by (apply elem_of_cons; by left).
    + by rewrite decide_False by (by intros [?|?]%elem_of_cons).
Qed.

(** Whether the loop raises depends on the posted texts only. *)
Lemma merge_succeeds post_data attrs data :
  parses attrs post_data →
  ∃ data', foldM (merge_attr post_data) data attrs = Ok data'.
Proof.
  revert data. induction attrs as [|a attrs IH]; intros data Hparse; simpl; [eauto|].
  unfold merge_attr at 1.
  destruct (post_get post_data a) as [text|] eqn:Hget.
  - destruct (Hparse a text) as [v Hv]; [apply elem_of_cons; by left | done |].
    rewrite Hv. simpl. apply IH. intros a' t' Hin. apply Hparse. apply elem_of_cons; by right.
  - simpl. apply IH. intros a' t' Hin. apply Hparse. apply elem_of_cons; by right.
Qed.

Lemma merge_parses post_data attrs data data' :
  foldM (merge_attr post_data) data attrs = Ok data' → parses attrs post_data.
Proof.
  revert data. induction attrs as [|a attrs IH]; intros data Hrun a' text Hin Hget.
  - by apply elem_of_nil in Hin.
  - simpl in Hrun. apply bind_Ok in Hrun as (d1 & Hstep & Hrest).
    apply elem_of_cons in Hin as [->|Hin]; [|by eapply IH].
    unfold merge_attr in Hstep. rewrite Hget in Hstep.
    destruct (json_loads text) as [v|e]; [eauto | done].
Qed.

(** The merge of one partial update, for any attribute list. *)
Lemma merge_post_spec attrs post_data data :
  parses attrs post_data →
  ∃ data', merge_post attrs post_data data = (data', Ok ()) ∧ merged attrs post_data data data'.
Proof.
  intros Hparse. destruct (merge_succeeds post_data attrs data Hparse) as [data' Hrun].
  exists data'. unfold merge_post. rewrite Hrun. split; [done|]. split.
  - intros k text v Hin Hget Hv. rewrite (merge_lookup _ _ _ _ k Hrun).
    rewrite decide_True by done. by rewrite Hget, Hv.
  - intros k Hk. rewrite (merge_lookup _ _ _ _ k Hrun).
    destruct (decide (k ∈ attrs)); [|done]. by destruct Hk as [?| ->].
Qed.

(** A second run of the loop on its own result changes nothing. *)
Lemma merge_loop_idempotent post_data attrs data data' :
  foldM (merge_attr post_data) data attrs = Ok data' →
  foldM (merge_attr post_data) data' attrs = Ok data'.
Proof.
  intros Hrun.
  destruct (merge_succeeds post_data attrs data' (merge_parses _ _ _ _ Hrun)) as [data'' Hrun'].
  rewrite Hrun'. f_equal. apply map_eq. intros k.
  rewrite (merge_lookup _ _ _ _ k Hrun'), (merge_lookup _ _ _ _ k Hrun).
  by destruct (if decide (k ∈ attrs) then post_get post_data k else None).
Qed.

Lemma merge_post_idempotent attrs post_data data :
  merge_post attrs post_data (merge_post attrs post_data data).1 = merge_post attrs post_data data.
Proof.
  unfold merge_post. destruct (foldM (merge_attr post_data) data attrs) as [data'|e] eqn:Hrun; simpl.
  - by rewrite (merge_loop_idempotent _ _ _ _ Hrun).
  - by rewrite Hrun.
Qed.
End MergeFacts.

(** C4: [update_from_post], on [Facet] and on [Sorting], overwrites exactly
    the attributes of the class's [_ATTRIBUTES] for which the partial update
    holds a non-null text, with the parsed text, and leaves every other
    attribute of the stored document as it was; names outside [_ATTRIBUTES]
    are ignored.  An update posting nothing but [fields] therefore leaves
    [properties], [ranges], [dates] and [order] unchanged.  The posted texts
    are taken to be valid JSON. *)
Theorem C4_update_overwrites_posted_attributes_only `{JsonLoads} (post_data : post) (data : doc) :
  (parses Facet._ATTRIBUTES post_data →
   ∃ data', Facet.update_from_post post_data data = (data', Ok ()) ∧
     merged Facet._ATTRIBUTES post_data data data' ∧
     ((∀ k, k ≠ "fields" → post_get post_data k = None) →
        ∀ k, k ∈ ["properties"; "ranges"; "dates"; "order"] → data' !! k = data !! k)) ∧
  (parses Sorting._ATTRIBUTES post_data →
   ∃ data', Sorting.update_from_post post_data data = (data', Ok ()) ∧
     merged Sorting._ATTRIBUTES post_data data data').
Proof.
  split; intros Hparse.
  - destruct (merge_post_spec _ post_data data Hparse) as (data' & Hrun & Hset & Hkeep).
    exists data'. split; [done|]. split; [done|].
    intros Honly k Hk. apply Hkeep. right. apply Honly. intros ->.
    by repeat (apply elem_of_cons in Hk as [Hk|Hk]; [discriminate|]); apply elem_of_nil in Hk.
  - destruct (merge_post_spec _ post_data data Hparse) as (data' & Hrun & Hm). eauto.
Qed.

(** The merge on [stored_facets] of an update posting [fields] only. *)
Lemma C4_update_witness :
  ∃ data', Facet.update_from_post (H := loads_literals) only_fields stored_facets = (data', Ok ()) ∧
    data' !! "fields" = Some (JArr []) ∧
    ∀ k, k ∈ ["properties"; "ranges"; "dates"; "order"] → data' !! k = stored_facets !! k.
Proof.
  destruct (C4_update_overwrites_posted_attributes_only (H := loads_literals)
              only_fields stored_facets) as [Hfacet _].
  destruct Hfacet as (data' & Hrun & [Hset Hkeep] & Honly).
  - intros a text Hin Hget.
    repeat (apply elem_of_cons in Hin as [->|Hin]; [vm_compute in Hget; try discriminate|]).
    + injection Hget as <-. by eexists.
    + by apply elem_of_nil in Hin.
  - exists data'. split; [done|]. split.
    + by apply (Hset "fields" "[]"); [repeat constructor | |].
    + apply Honly. intros k Hk. unfold post_get, only_fields.
      by rewrite lookup_singleton_ne.
Defined.

(** C8: applying [update_from_post] a second time with the same partial
    update gives the stored document, and the outcome, of the first
    application; on [Facet], [Result] and [Sorting] alike. *)
Theorem C8_update_from_post_idempotent `{JsonLoads} (post_data : post) (data : doc) :
  Facet.update_from_post post_data (Facet.update_from_post post_data data).1
    = Facet.update_from_post post_data data ∧
  Result.update_from_post post_data (Result.update_from_post post_data data).1
    = Result.update_from_post post_data data ∧
  Sorting.update_from_post post_data (Sorting.update_from_post post_data data).1
    = Sorting.update_from_post post_data data.
Proof. repeat split; apply merge_post_idempotent. Qed.

(** ** Label and uuid lookup *)

Lemma has_keys_getitem keys v k :
  has_keys keys v = true → k ∈ keys → ∃ x, v.[k] = Ok x.
Proof.
  destruct v as [| | | | |items]; simpl; try discriminate.
  rewrite forallb_forall. intros Hall Hin.
  specialize (Hall k (proj1 (list_elem_of_In _ _) Hin)).
  apply bool_decide_eq_true in Hall as [x Hx]. rewrite Hx. eauto.
Qed.

Lemma find_app_None {A} (p : A → bool) (l1 l2 : list A) :
  forallb (fun x => negb (p x)) l1 = true → find p (l1 ++ l2) = find p l2.
Proof.
  induction l1 as [|x l1 IH]; simpl; [done|].
  intros [Hx Hl]%andb_true_iff. apply negb_true_iff in Hx. rewrite Hx. by apply IH.
Qed.

Lemma forallb_rev {A} (p : A → bool) (l : list A) : forallb p (rev l) = forallb p l.
Proof.
  induction l as [|x l IH]; simpl; [done|].
  rewrite forallb_app, IH. simpl. rewrite andb_true_r. apply andb_comm.
Qed.

(** The scan returns what the last matching entry holds, or its initial
    value when no entry matches. *)
Lemma scan_last_match (attr : string) (field init : json) (entries : list json) :
  forallb (has_keys ["field"; attr]) entries = true →
  ∃ x, foldM (scan_step attr field) init entries = Ok x ∧
    match find (matches field) (rev entries) with
    | Some e => e.[attr] = Ok x
    | None => x = init
    end.
Proof.
  induction entries as [|e entries IH] using rev_ind; intros Hwf; simpl; [eauto|].
  rewrite forallb_app in Hwf. apply andb_true_iff in Hwf as [Hwf He]. simpl in He.
  rewrite andb_true_r in He.
  destruct (IH Hwf) as (x & Hrun & Hx).
  rewrite foldM_app, Hrun, rev_app_distr. simpl.
  destruct (has_keys_getitem _ _ "field" He) as [f Hf]; [repeat constructor|].
  destruct (has_keys_getitem _ _ attr He) as [a Ha]; [repeat constructor|].
  unfold scan_step, matches. rewrite Hf. simpl.
  destruct (py_eq f field); simpl.
  - rewrite Ha. simpl. eauto.
  - eauto.
Qed.

Lemma facet_entries_have (attr : string) (entries : list json) :
  attr ∈ ["label"; "uuid"] →
  forallb facet_entry entries = true → forallb (has_keys ["field"; attr]) entries = true.
Proof.
  intros Hattr. rewrite !forallb_forall. intros Hall e He. specialize (Hall e He).
  destruct e as [| | | | |items]; simpl in *; try discriminate.
  apply andb_true_iff in Hall as [Hf Hall]. rewrite Hf. simpl.
  apply andb_true_iff in Hall as [Hl Hall]. apply andb_true_iff in Hall as [Hu _].
  apply elem_of_cons in Hattr as [->|Hattr]; [by rewrite Hl|].
  apply elem_of_cons in Hattr as [->|Hattr]; [by rewrite Hu|].
  by apply elem_of_nil in Hattr.
Qed.

(** Both lookups reduce to the scan of the list that the kind selects. *)
Lemma lookups_scan (kind : facet_kind) (field : json) (facets : doc) (entries : list json) :
  facets !! kind_entries kind = Some (JArr entries) →
  get_facet_field_label field (kind_name kind) facets = foldM (scan_step "label" field) field entries ∧
  get_facet_field_uuid field (kind_name kind) facets = foldM (scan_step "uuid" field) (JStr "") entries.
Proof.
  intros Hsub. unfold get_facet_field_label, get_facet_field_uuid, dict_getitem, scan.
  by destruct kind; simpl in *; rewrite Hsub.
Qed.



(** C9: when several entries of the list carry the field name, the lookups
    return the label and the uuid of the last of them: the scan goes on after
    a match and a later match overwrites the earlier one. *)
Theorem C9_lookup_returns_last_match
    (kind : facet_kind) (name : string) (facets : doc) (before after : list json) (e : json) :
  facets !! kind_entries kind = Some (JArr (before ++ e :: after)) →
  forallb facet_entry (before ++ e :: after) = true →
  matches (JStr name) e = true →
  forallb (fun x => negb (matches (JStr name) x)) after = true →
  get_facet_field_label (JStr name) (kind_name kind) facets = e.["label"] ∧
  get_facet_field_uuid (JStr name) (kind_name kind) facets = e.["uuid"].
Proof.
  intros Hsub Hwf He Hafter.
  destruct (lookups_scan kind (JStr name) facets _ Hsub) as [-> ->].
  assert (find (matches (JStr name)) (rev (before ++ e :: after)) = Some e) as Hfind.
  { rewrite rev_app_distr. simpl. rewrite <- app_assoc.
    rewrite find_app_None by (by rewrite forallb_rev). simpl. by rewrite He. }
  destruct (scan_last_match "label" (JStr name) (JStr name) (before ++ e :: after))
    as (label & -> & Hlabel).
  { apply facet_entries_have; [|done]. repeat constructor. }
  destruct (scan_last_match "uuid" (JStr name) (JStr "") (before ++ e :: after))
    as (uuid & -> & Huuid).
  { apply facet_entries_have; [|done]. repeat constructor. }
  rewrite Hfind in Hlabel, Huuid. by rewrite Hlabel, Huuid.
Qed.

(** Of the two entries for [tag], the second one answers. *)
Lemma C9_lookup_witness :
  get_facet_field_label (JStr "tag") "field" two_fields = Ok (JStr "Topic") ∧
  get_facet_field_uuid (JStr "tag") "field" two_fields = Ok (JStr "u3").
Proof.
  exact (C9_lookup_returns_last_match KField "tag" two_fields
           [ JObj [("field", JStr "tag"); ("label", JStr "Tag"); ("uuid", JStr "u1")];
             JObj [("field", JStr "lang"); ("label", JStr "Language"); ("uuid", JStr "u2")] ]
           []
           (JObj [("field", JStr "tag"); ("label", JStr "Topic"); ("uuid", JStr "u3")])
           eq_refl eq_refl eq_refl eq_refl).
Defined.

(** ** The facet parameters *)

Lemma mapM_lookup {A B} (f : A → result B) (l : list A) (ys : list B) (i : nat) (x : A) :
  mapM f l = Ok ys → l !! i = Some x → ∃ y, f x = Ok y ∧ ys !! i = Some y.
Proof.
  revert ys i. induction l as [|a l IH]; intros ys i Hrun Hi; [done|].
  simpl in Hrun. apply bind_Ok in Hrun as (y & Hy & Hrun).
  apply bind_Ok in Hrun as (ys' & Hys & Hrun). injection Hrun as <-.
  destruct i as [|i]; simpl in *.
  - injection Hi as <-. eauto.
  - eauto.
Qed.

(** The accumulating loop appends, in order, what each entry contributes. *)
Lemma foldM_extend_params (f : json → result (list param)) (params ps : list param) (l : list json) :
  foldM (Facet.extend_params f) params l = Ok ps →
  ∃ chunks, mapM f l = Ok chunks ∧ ps = params ++ concat chunks.
Proof.
  revert params. induction l as [|a l IH]; intros params Hrun; simpl in *.
  - injection Hrun as <-. exists []. by rewrite app_nil_r.
  - apply bind_Ok in Hrun as (p1 & Hstep & Hrun). unfold Facet.extend_params in Hstep.
    apply bind_Ok in Hstep as (more & Hmore & Hstep). injection Hstep as <-.
    destruct (IH _ Hrun) as (chunks & Hchunks & ->).
    exists (more :: chunks). rewrite Hmore, Hchunks. simpl. by rewrite app_assoc.
Qed.

Lemma concat_middle {A} (chunks : list (list A)) (i : nat) (c : list A) :
  chunks !! i = Some c →
  concat chunks = concat (take i chunks) ++ c ++ concat (drop (S i) chunks).
Proof.
  intros Hi. rewrite <- (take_drop_middle chunks i c Hi) at 1.
  by rewrite concat_app.
Qed.



(** *** Entries that lack a key *)










(** ** Response normalisation *)

Lemma place_placed (r : record) (st : collected) :
  is_Some (hash_key r.2) → place r.2 r.1 st = Ok (placed st r).
Proof.
  intros [k Hk]. destruct st as [nf df]. unfold place, placed, is_default. simpl.
  destruct (py_eq r.2 (JStr "")); [done|]. by rewrite Hk.
Qed.

Lemma foldM_visit (build : json → result record) (cats : list json) (recs : list record) (st : collected) :
  mapM build cats = Ok recs →
  Forall (fun r => is_Some (hash_key r.2)) recs →
  foldM (visit build) st cats = Ok (foldl placed st recs).
Proof.
  revert recs st. induction cats as [|c cats IH]; intros recs st Hrecs Hhash; simpl in *.
  - by injection Hrecs as <-.
  - apply bind_Ok in Hrecs as (r & Hr & Hrecs). apply bind_Ok in Hrecs as (rs & Hrs & Hrecs).
    injection Hrecs as <-. apply Forall_cons in Hhash as [Hr' Hhash].
    unfold visit at 1. rewrite Hr. simpl. rewrite (place_placed r st Hr'). simpl.
    by apply IH.
Qed.

Lemma each_category_placed (build : json → result record) (category : json)
    (recs : list record) (st : collected) :
  category_records build category = Ok recs →
  Forall (fun r => is_Some (hash_key r.2)) recs →
  each_category build category st = Ok (foldl placed st recs).
Proof.
  unfold category_records, each_category. intros Hrecs Hhash.
  destruct (py_truthy category); [|by injection Hrecs as <-].
  apply bind_Ok in Hrecs as (cats & -> & Hrecs). simpl. by apply foldM_visit.
Qed.

(** What the placed records leave in the two locals. *)
Lemma placed_defaults (recs : list record) (st : collected) :
  (foldl placed st recs).2 = st.2 ++ defaults recs.
Proof.
  revert st. induction recs as [|r recs IH]; intros st; simpl.
  - by rewrite app_nil_r.
  - rewrite IH. unfold placed, defaults. simpl.
    destruct (is_default r); simpl; [by rewrite <- app_assoc|].
    by destruct (hash_key r.2).
Qed.

Lemma placed_lookup (recs : list record) (st : collected) (k : pykey) :
  (foldl placed st recs).1 !! k =
    match keyed k recs with
    | Some facet => Some facet
    | None => st.1 !! k
    end.
Proof.
  revert st. induction recs as [|r recs IH] using rev_ind; intros st; [done|].
  rewrite foldl_app. simpl. unfold keyed. rewrite rev_app_distr. simpl.
  unfold placed at 1. destruct (is_default r) eqn:Hd; simpl.
  - apply IH.
  - destruct (hash_key r.2) as [k'|] eqn:Hk; simpl.
    + destruct (decide (k' = k)) as [->|Hne].
      * rewrite bool_decide_eq_true_2 by done. simpl. apply lookup_insert_eq.
      * rewrite bool_decide_eq_false_2 by congruence. rewrite lookup_insert_ne by done. apply IH.
    + apply IH.
Qed.

(** The final loop appends, for each uuid of [order], what the dictionary
    holds under it. *)
Lemma fold_append_ordered (nf : gmap pykey json) (order out : list json) :
  fold_left (append_ordered nf) order out = out ++ omap (fun u => hash_key u ≫= (nf !!.)) order.
Proof.
  revert out. induction order as [|u order IH]; intros out; simpl.
  - by rewrite app_nil_r.
  - rewrite IH. unfold append_ordered.
    destruct (hash_key u ≫= (nf !!.)); [by rewrite <- app_assoc|done].
Qed.

Lemma setitem_setitem (obj : loc) (key : string) (v w : json) (h : heap) :
  setitem obj key w (setitem obj key v h) = setitem obj key w h.
Proof.
  unfold setitem. rewrite lookup_total_insert_eq, insert_insert_eq.
  by rewrite (insert_insert_eq (M := gmap string)).
Qed.

Lemma setitem_lookup (obj : loc) (key : string) (v : json) (h : heap) :
  setitem obj key v h !!! obj = <[key := v]> (h !!! obj).
Proof. unfold setitem. apply lookup_total_insert_eq. Qed.

(** The loops read the response as it is after [normalized_facets] was set;
    they find the records of the response as it came in. *)
Lemma collect_facets_placed (d facets : doc) (v : json) (recs : list record) :
  discovered d facets = Ok recs →
  Forall (fun r => is_Some (hash_key r.2)) recs →
  collect_facets (<["normalized_facets" := v]> d) facets = Ok (foldl placed (∅, []) recs).
Proof.
  unfold discovered, collect_facets, doc_truthy, dict_get, dict_getitem.
  rewrite lookup_insert_ne by done. intros Hrecs Hhash.
  assert (size (<["normalized_facets" := v]> d) ≠ 0) as Hsize.
  { intros Hz. apply map_size_empty_inv in Hz. by apply insert_non_empty in Hz. }
  destruct (size _); [done|]. simpl.
  destruct (py_truthy (default JNull (d !! "facet_counts"))) eqn:Hfc; [|by injection Hrecs as <-].
  destruct (d !! "facet_counts") as [fc|]; [|done]. simpl in *.
  apply bind_Ok in Hrecs as (ff & -> & Hrecs). apply bind_Ok in Hrecs as (r1 & H1 & Hrecs).
  apply bind_Ok in Hrecs as (fr & -> & Hrecs). apply bind_Ok in Hrecs as (r2 & H2 & Hrecs).
  apply bind_Ok in Hrecs as (fd & -> & Hrecs). apply bind_Ok in Hrecs as (r3 & H3 & Hrecs).
  injection Hrecs as <-. apply Forall_app in Hhash as [Hh1 Hhash].
  apply Forall_app in Hhash as [Hh2 Hh3]. simpl.
  rewrite (each_category_placed _ _ _ _ H1 Hh1). simpl.
  rewrite (each_category_placed _ _ _ _ H2 Hh2). simpl.
  rewrite (each_category_placed _ _ _ _ H3 Hh3). simpl.
  by rewrite !foldl_app.
Qed.

Lemma ordered_lookup (nf : gmap pykey json) (recs : list record) (order : list json) :
  (∀ k, nf !! k = keyed k recs) →
  omap (fun u => hash_key u ≫= (nf !!.)) order = ordered order recs.
Proof.
  intros Hnf. unfold ordered, omap. induction order as [|u order IH]; simpl; [done|].
  rewrite IH. destruct (hash_key u) as [k|]; simpl; [|done]. by rewrite Hnf.
Qed.

(** The whole function, for a response whose records can all be built and
    placed. *)
Lemma augment_of_records (response : loc) (facets : doc) (h : heap) (d : doc)
    (recs : list record) (order : list json) :
  h !! response = Some d →
  discovered d facets = Ok recs →
  Forall (fun r => is_Some (hash_key r.2)) recs →
  dict_get_default facets "order" (JArr []) = JArr order →
  augment_solr_response response facets h =
    (<[response := <["normalized_facets" := JArr (ordered order recs ++ defaults recs)]> d]> h,
     Ok response).
Proof.
  intros Hd Hrecs Hhash Horder. unfold augment_solr_response.
  rewrite setitem_lookup, (lookup_total_correct _ _ _ Hd).
  rewrite (collect_facets_placed d facets _ recs Hrecs Hhash).
  pose proof (placed_defaults recs (∅, [])) as Hdf.
  pose proof (placed_lookup recs (∅, [])) as Hnf.
  destruct (foldl placed (∅, []) recs) as [nf df]. simpl in Hdf, Hnf. subst df.
  rewrite Horder. simpl py_iter. cbv iota beta.
  rewrite fold_append_ordered, setitem_setitem. simpl.
  rewrite (ordered_lookup nf recs).
  2:{ intros k. rewrite Hnf, lookup_empty. by destruct (keyed k recs). }
  unfold setitem. rewrite (lookup_total_correct _ _ _ Hd).
  f_equal. do 3 f_equal.
  destruct (defaults recs); simpl; [by rewrite app_nil_r|done].
Qed.

(** C2: the final [normalized_facets] holds, for each uuid of the
    configuration's [order] in order, the record keyed by that uuid when there
    is one (a uuid without a record is skipped), followed by the records whose
    resolved uuid is the empty string, in the order they were discovered.
    Stated for a response whose facet records can be built; [order] may be
    absent from the configuration, which stands for the empty list. *)
Theorem C2_normalized_facets_order (response : loc) (facets : doc) (h : heap) (d : doc)
    (recs : list record) (order : list json) :
  h !! response = Some d →
  discovered d facets = Ok recs →
  Forall (fun r => is_Some (hash_key r.2)) recs →
  dict_get_default facets "order" (JArr []) = JArr order →
  augment_solr_response response facets h =
    (<[response := <["normalized_facets" := JArr (ordered order recs ++ defaults recs)]> d]> h,
     Ok response).
Proof. apply augment_of_records. Qed.

(** The facet of [u2], then the facet of [u1], then the unknown [f3]. *)
Lemma C2_normalized_facets_witness :
  augment_solr_response 0 ordered_config {[ 0 := faceted_response ]} =
    ({[ 0 := <["normalized_facets" :=
                 JArr [ facet_of "f2" "Second" [JStr "b"; JNum 2];
                        facet_of "f1" "First" [JStr "a"; JNum 3];
                        facet_of "f3" "f3" [JStr "c"; JNum 1] ]]> faceted_response ]},
     Ok 0).
Proof.
  rewrite (C2_normalized_facets_order 0 ordered_config {[ 0 := faceted_response ]}
             faceted_response _ [JStr "u2"; JStr "u1"] (lookup_singleton_eq _ _) eq_refl).
  - rewrite insert_singleton_eq. reflexivity.
  - simpl. repeat (constructor; [by eexists|]). constructor.
  - reflexivity.
Defined.

(** *** Responses without facet data *)

(** C3 as stated fails: a response whose [facet_counts] lacks the sub-key
    [facet_ranges] makes the normalisation raise [KeyError('facet_ranges')]
    instead of returning with an empty [normalized_facets]. *)
Lemma C3_missing_subkey_raises :
  (augment_solr_response 0 ordered_config {[ 0 := fields_only_response ]}).2
    = Err (KeyError (JStr "facet_ranges")).
Proof. reflexivity. Qed.

Lemma collect_facets_raises (d facets : doc) (v : json) (items : list (string * json)) (key : string) :
  d !! "facet_counts" = Some (JObj items) →
  items ≠ [] →
  key ∈ ["facet_fields"; "facet_ranges"; "facet_dates"] →
  assoc key items = None →
  ∃ e, collect_facets (<["normalized_facets" := v]> d) facets = Err e.
Proof.
  intros Hfc Hne Hkey Hnone.
  unfold collect_facets, doc_truthy, dict_get, dict_getitem.
  rewrite lookup_insert_ne by done. rewrite Hfc.
  assert (size (<["normalized_facets" := v]> d) ≠ 0) as Hsize.
  { intros Hz. apply map_size_empty_inv in Hz. by apply insert_non_empty in Hz. }
  assert (py_truthy (JObj items) = true) as Htruthy by (by destruct items).
  destruct (size _); [done|]. simpl default. rewrite Htruthy. simpl.
  repeat (apply elem_of_cons in Hkey as [->|Hkey]); [| | |by apply elem_of_nil in Hkey];
    repeat (match goal with
            | |- ∃ e, bind (match assoc ?k items with _ => _ end) _ = _ =>
                lazymatch goal with
                | Hk : assoc k items = None |- _ => rewrite Hk; simpl; eauto
                | _ => destruct (assoc k items); simpl; [|by eauto]
                end
            | |- ∃ e, bind ?m _ = _ => destruct m; simpl; [|by eauto]
            end).
Qed.

(** C3 (as the code has it): a response with no [facet_counts] key, or with
    a null or empty one, comes back with [normalized_facets = []] and nothing
    is raised, the configuration's [order] being a list or absent.  A
    non-empty [facet_counts] that lacks [facet_fields], [facet_ranges] or
    [facet_dates] makes the normalisation raise; the response is left with
    [normalized_facets = []]. *)
Theorem C3_no_facet_data (response : loc) (facets : doc) (h : heap) (d : doc) :
  h !! response = Some d →
  (∀ order,
     py_truthy (dict_get d "facet_counts") = false →
     dict_get_default facets "order" (JArr []) = JArr order →
     augment_solr_response response facets h =
       (<[response := <["normalized_facets" := JArr []]> d]> h, Ok response)) ∧
  (∀ items key,
     d !! "facet_counts" = Some (JObj items) →
     items ≠ [] →
     key ∈ ["facet_fields"; "facet_ranges"; "facet_dates"] →
     assoc key items = None →
     ∃ e, augment_solr_response response facets h =
            (<[response := <["normalized_facets" := JArr []]> d]> h, Err e)).
Proof.
  intros Hd. split.
  - intros order Hfc Horder.
    rewrite (augment_of_records response facets h d [] order Hd); [| |done|done].
    + unfold ordered, keyed. simpl.
      replace (omap _ order) with (@nil json); [done|].
      clear Horder. induction order as [|u order IH]; simpl; [done|].
      by destruct (hash_key u).
    + unfold discovered. by rewrite Hfc.
  - intros items key Hfc Hne Hkey Hnone.
    unfold augment_solr_response. rewrite setitem_lookup, (lookup_total_correct _ _ _ Hd).
    destruct (collect_facets_raises d facets (JArr []) items key Hfc Hne Hkey Hnone) as [e ->].
    exists e. unfold setitem. by rewrite (lookup_total_correct _ _ _ Hd).
Qed.

(** A response without [facet_counts] comes back with an empty list. *)
Lemma C3_no_facet_data_witness :
  augment_solr_response 0 ordered_config {[ 0 := plain_response ]} =
    ({[ 0 := <["normalized_facets" := JArr []]> plain_response ]}, Ok 0).
Proof.
  rewrite (proj1 (C3_no_facet_data 0 ordered_config {[ 0 := plain_response ]} plain_response
                    (lookup_singleton_eq _ _)) [JStr "u2"; JStr "u1"] eq_refl eq_refl).
  by rewrite insert_singleton_eq.
Defined.

(** *** The response object *)



(** * Further properties *)

(** ** The facet builder *)

Lemma bool_word_truthy (v : json) :
  py_or (py_and v (JStr "true")) (JStr "false") = JStr (if py_truthy v then "true" else "false").
Proof.
  unfold py_or, py_and. destruct (py_truthy v) eqn:E; simpl; [done|]. by rewrite E.
Qed.

Lemma mapM_Ok_length {A B} (f : A → result B) (l : list A) (ys : list B) :
  mapM f l = Ok ys → length ys = length l.
Proof.
  revert ys. induction l as [|a l IH]; intros ys Hrun; simpl in Hrun.
  - by injection Hrun as <-.
  - apply bind_Ok in Hrun as (y & _ & Hrun). apply bind_Ok in Hrun as (ys' & Hys & Hrun).
    injection Hrun as <-. simpl. by rewrite (IH _ Hys).
Qed.

Lemma foldM_extend_mapM (f : json → result (list param)) (params : list param)
    (l : list json) (chunks : list (list param)) :
  mapM f l = Ok chunks →
  foldM (Facet.extend_params f) params l = Ok (params ++ concat chunks).
Proof.
  revert params chunks. induction l as [|a l IH]; intros params chunks Hrun; simpl in *.
  - injection Hrun as <-. by rewrite app_nil_r.
  - apply bind_Ok in Hrun as (c & Hc & Hrun). apply bind_Ok in Hrun as (cs & Hcs & Hrun).
    injection Hrun as <-. unfold Facet.extend_params at 1. rewrite Hc. simpl.
    rewrite (IH _ _ Hcs). simpl. by rewrite app_assoc.
Qed.

(** One stage of the builder on a list-valued attribute. *)
Lemma listed_stage (d : doc) (k : string) (l : list json) (A : Type)
    (run : list json → result A) (skip : result A) :
  listed d k l →
  run [] = skip →
  (if py_truthy (dict_get d k)
   then let* v := dict_getitem d k in let* it := py_iter v in run it
   else skip) = run l.
Proof.
  unfold dict_get, dict_getitem. intros [Hl|[-> [Hl|Hl]]] Hskip; rewrite Hl; simpl.
  - by destruct l.
  - done.
  - done.
Qed.

Ltac stage H :=
  match type of H with
  | listed ?d ?k ?l =>
      match goal with
      | |- context [if py_truthy (dict_get d k)
                    then let* v := dict_getitem d k in let* it := py_iter v in @?run it
                    else ?skip] =>
          rewrite (listed_stage d k l _ run skip H); [cbv beta|cbv beta; try reflexivity]
      end
  end.

(** X1: for a configuration whose [properties] is a dictionary and whose
    [fields], [ranges] and [dates] are lists (or absent) of entries that each
    build, the builder returns the four base parameters, then one
    [facet.field] per field entry, then the parameters of the range entries,
    then those of the date entries, each group in document order. *)
Theorem X1_facet_params_layout `{PyRepr} (data_dict : doc) (props : list (string * json))
    (fields ranges dates : list json)
    (field_params : list param) (range_chunks date_chunks : list (list param)) :
  data_dict !! "properties" = Some (JObj props) →
  listed data_dict "fields" fields →
  listed data_dict "ranges" ranges →
  listed data_dict "dates" dates →
  mapM Facet.field_facet_param fields = Ok field_params →
  mapM Facet.range_facets ranges = Ok range_chunks →
  mapM Facet.date_facets dates = Ok date_chunks →
  Facet.get_query_params data_dict =
    Ok (base_params (default JNull (assoc "isEnabled" props)) (default JNull (assoc "limit" props))
                    (default JNull (assoc "mincount" props)) (default JNull (assoc "sort" props))
          ++ field_params ++ concat range_chunks ++ concat date_chunks).
Proof.
  intros Hprops Hfields Hranges Hdates Hf Hr Hd.
  assert (∀ k, py_get (dict_get data_dict "properties") k = Ok (default JNull (assoc k props)))
    as Hget by (intros k; unfold dict_get; by rewrite Hprops).
  unfold Facet.get_query_params. cbv zeta. rewrite !Hget. cbn [bind].
  rewrite bool_word_truthy.
  stage Hfields.
  rewrite Hf. cbn [bind].
  stage Hranges. rewrite (foldM_extend_mapM _ _ _ _ Hr). cbn [bind].
  stage Hdates. rewrite (foldM_extend_mapM _ _ _ _ Hd). cbn [bind].
  unfold base_params. by rewrite <- !app_assoc.
Qed.

(** The builder on [two_ranges]. *)
Lemma X1_facet_params_witness :
  Facet.get_query_params (H := scalar_repr) two_ranges =
    Ok [ ("facet", JStr "true"); ("facet.limit", JNum 10); ("facet.mincount", JNum 1);
         ("facet.sort", JStr "count");
         ("facet.field", JStr "tag");
         ("facet.range", JStr "price");
         ("f.price.facet.range.start", JNum 0); ("f.price.facet.range.end", JNum 50);
         ("f.price.facet.range.gap", JNum 5);
         ("facet.range", JStr "age");
         ("f.age.facet.range.start", JNum 0); ("f.age.facet.range.end", JNum 100);
         ("f.age.facet.range.gap", JNum 10);
         ("facet.date", JStr "created_at");
         ("f.created_at.facet.date.start", JStr "NOW-7DAYS/DAYS");
         ("f.created_at.facet.date.end", JStr "NOW-1DAYS");
         ("f.created_at.facet.date.gap", JStr "+1DAYS") ].
Proof.
  exact (X1_facet_params_layout (H := scalar_repr) two_ranges _ _ _ _ _ _ _
           eq_refl (or_introl eq_refl) (or_introl eq_refl) (or_introl eq_refl)
           eq_refl eq_refl eq_refl).
Defined.

(** X2: a range entry with [field], [start], [end] and [gap] contributes
    [facet.range=<field>] and the three parameters
    [f.<field>.facet.range.start|end|gap] carrying the entry's values as they
    are, in this order; whenever the builder returns for a configuration
    holding the entry in [ranges], the four parameters are a contiguous part
    of its output. *)
Theorem X2_range_params_rendering `{PyRepr} (e field start end_ gap : json) :
  range_entry e field start end_ gap →
  Facet.range_facets e = Ok (range_params field start end_ gap) ∧
  ∀ (data_dict : doc) (ranges : list json) (i : nat) (params : list param),
    data_dict !! "ranges" = Some (JArr ranges) →
    ranges !! i = Some e →
    Facet.get_query_params data_dict = Ok params →
    ∃ before after, params = before ++ range_params field start end_ gap ++ after.
Proof.
  intros (items & -> & Hf & Hs & He & Hg).
  assert (Facet.range_facets (JObj items) = Ok (range_params field start end_ gap)) as Hrange.
  { unfold Facet.range_facets. simpl. by rewrite Hf, Hs, He, Hg. }
  split; [done|].
  intros data_dict ranges i params Hranges Hi Hrun.
  unfold Facet.get_query_params in Hrun.
  do 4 (apply bind_Ok in Hrun as (? & _ & Hrun)).
  apply bind_Ok in Hrun as (p1 & _ & Hrun).
  apply bind_Ok in Hrun as (p2 & Hloop & Hrun).
  apply bind_Ok in Hrun as (p3 & Hdates & Hrun). injection Hrun as <-.
  unfold dict_get, dict_getitem in Hloop. rewrite Hranges in Hloop. simpl in Hloop.
  destruct ranges as [|r ranges]; [done|]. simpl py_truthy in Hloop. cbv iota in Hloop.
  apply (foldM_extend_params Facet.range_facets) in Hloop as (chunks & Hchunks & ->).
  destruct (mapM_lookup _ _ _ _ _ Hchunks Hi) as (c & Hc & Hci).
  rewrite Hrange in Hc. injection Hc as <-.
  assert (∃ more, p3 = (p1 ++ concat chunks) ++ more) as [more ->].
  { destruct (py_truthy (dict_get data_dict "dates")).
    - apply bind_Ok in Hdates as (? & _ & Hdates). apply bind_Ok in Hdates as (? & _ & Hdates).
      apply foldM_extend_params in Hdates as (cs & _ & ->). eauto.
    - injection Hdates as <-. exists []. by rewrite app_nil_r. }
  rewrite (concat_middle _ _ _ Hci).
  exists (p1 ++ concat (take i chunks)), (concat (drop (S i) chunks) ++ more).
  by rewrite <- !app_assoc.
Qed.

(** The second range entry of [two_ranges]. *)
Lemma X2_range_params_witness :
  Facet.range_facets (H := scalar_repr)
      (JObj [("field", JStr "age"); ("start", JNum 0); ("end", JNum 100); ("gap", JNum 10)]) =
    Ok [ ("facet.range", JStr "age");
         ("f.age.facet.range.start", JNum 0);
         ("f.age.facet.range.end", JNum 100);
         ("f.age.facet.range.gap", JNum 10) ].
Proof.
  refine (proj1 (X2_range_params_rendering (H := scalar_repr) _
                   (JStr "age") (JNum 0) (JNum 100) (JNum 10) _)).
  eexists. repeat split; reflexivity.
Defined.

(** Each of the three stages of the builder only appends. *)
Lemma facet_params_prefix `{PyRepr} (data_dict : doc) (params : list param) :
  Facet.get_query_params data_dict = Ok params →
  ∃ props rest,
    data_dict !! "properties" = Some (JObj props) ∧
    params =
      base_params (default JNull (assoc "isEnabled" props)) (default JNull (assoc "limit" props))
                  (default JNull (assoc "mincount" props)) (default JNull (assoc "sort" props))
        ++ rest.
Proof.
  intros Hrun. unfold Facet.get_query_params, dict_get, dict_getitem in Hrun.
  destruct (data_dict !! "properties") as [[| | | | |props]|]; try discriminate.
  exists props. simpl in Hrun. rewrite bool_word_truthy in Hrun.
  apply bind_Ok in Hrun as (p1 & H1 & Hrun).
  apply bind_Ok in Hrun as (p2 & H2 & Hrun).
  apply bind_Ok in Hrun as (p3 & H3 & Hrun). injection Hrun as <-.
  assert (∃ r1, p1 = base_params (default JNull (assoc "isEnabled" props))
                       (default JNull (assoc "limit" props))
                       (default JNull (assoc "mincount" props))
                       (default JNull (assoc "sort" props)) ++ r1) as [r1 ->].
  { destruct (py_truthy (default JNull (data_dict !! "fields"))).
    - apply bind_Ok in H1 as (? & _ & H1). apply bind_Ok in H1 as (? & _ & H1).
      apply bind_Ok in H1 as (ff & _ & H1). injection H1 as <-. by exists ff.
    - injection H1 as <-. by exists []. }
  assert (∃ r2, p2 = (base_params (default JNull (assoc "isEnabled" props))
                        (default JNull (assoc "limit" props))
                        (default JNull (assoc "mincount" props))
                        (default JNull (assoc "sort" props)) ++ r1) ++ r2) as [r2 ->].
  { destruct (py_truthy (default JNull (data_dict !! "ranges"))).
    - apply bind_Ok in H2 as (? & _ & H2). apply bind_Ok in H2 as (? & _ & H2).
      apply foldM_extend_params in H2 as (cs & _ & ->). eauto.
    - injection H2 as <-. exists []. by rewrite app_nil_r. }
  assert (∃ r3, p3 = ((base_params (default JNull (assoc "isEnabled" props))
                         (default JNull (assoc "limit" props))
                         (default JNull (assoc "mincount" props))
                         (default JNull (assoc "sort" props)) ++ r1) ++ r2) ++ r3) as [r3 ->].
  { destruct (py_truthy (default JNull (data_dict !! "dates"))).
    - apply bind_Ok in H3 as (? & _ & H3). apply bind_Ok in H3 as (? & _ & H3).
      apply foldM_extend_params in H3 as (cs & _ & ->). eauto.
    - injection H3 as <-. exists []. by rewrite app_nil_r. }
  exists (r1 ++ r2 ++ r3). by rewrite <- !app_assoc.
Qed.

(** X3: the facet builder needs [properties] to be a dictionary: without it
    [AttributeError] is raised.  Whenever the builder returns, its output
    begins with [facet], [facet.limit], [facet.mincount] and [facet.sort];
    [facet] is the string [true] when [isEnabled] is truthy and the string
    [false] otherwise, and the other three carry what [properties] holds
    ([None] for an absent key). *)
Theorem X3_facet_params_begin_with_properties `{PyRepr} (data_dict : doc) :
  ((∀ props, data_dict !! "properties" ≠ Some (JObj props)) →
   Facet.get_query_params data_dict = Err AttributeError) ∧
  (∀ params,
     Facet.get_query_params data_dict = Ok params →
     ∃ props rest,
       data_dict !! "properties" = Some (JObj props) ∧
       params =
         base_params (default JNull (assoc "isEnabled" props)) (default JNull (assoc "limit" props))
                     (default JNull (assoc "mincount" props)) (default JNull (assoc "sort" props))
           ++ rest).
Proof.
  split; [|apply facet_params_prefix].
  intros Hno. unfold Facet.get_query_params, dict_get.
  destruct (data_dict !! "properties") as [[| | | | |props]|]; try done.
  by destruct (Hno props).
Qed.

(** ** The result and sort builders *)

Lemma py_join_strings (sep : string) (parts : list string) :
  py_join sep (JArr (map JStr parts)) = Ok (String.concat sep parts).
Proof.
  unfold py_join. simpl.
  assert (mapM (fun x => match x with JStr s => Ok s | _ => Err TypeError end) (map JStr parts)
          = Ok parts) as ->; [|done].
  induction parts as [|s parts IH]; simpl; [done|]. by rewrite IH.
Qed.

(** X4: the result builder emits nothing when [highlighting] is absent,
    null or empty, without looking at [properties].  For a non-empty list of
    field names it emits exactly [hl] and [hl.fl]: [hl] is the string [true]
    when [highlighting_enabled] is truthy and [false] otherwise (also when
    [properties] is absent), and [hl.fl] is the names joined by commas. *)
Theorem X4_highlight_params (data_dict : doc) :
  (py_truthy (dict_get data_dict "highlighting") = false →
   Result.get_query_params data_dict = Ok []) ∧
  (∀ (name : string) (names : list string) (props : list (string * json)),
     data_dict !! "highlighting" = Some (JArr (map JStr (name :: names))) →
     dict_get_default data_dict "properties" (JObj []) = JObj props →
     Result.get_query_params data_dict =
       Ok [ ("hl", JStr (if py_truthy (default JNull (assoc "highlighting_enabled" props))
                         then "true" else "false"));
            ("hl.fl", JStr (String.concat "," (name :: names))) ]).
Proof.
  split.
  - intros Hoff. unfold Result.get_query_params. by rewrite Hoff.
  - intros name names props Hhl Hprops. unfold Result.get_query_params, dict_get.
    rewrite Hhl, Hprops. cbn [default id]. rewrite py_join_strings.
    simpl. by rewrite bool_word_truthy.
Qed.

(** Highlighting of [text] and [title]. *)
Lemma X4_highlight_witness :
  Result.get_query_params highlighted_result =
    Ok [("hl", JStr "true"); ("hl.fl", JStr "text,title")].
Proof.
  exact (proj2 (X4_highlight_params highlighted_result) "text" ["title"] _ eq_refl eq_refl).
Defined.





Lemma sorting_params_shape `{PyRepr} (data_dict : doc) (params : list param) :
  Sorting.get_query_params data_dict = Ok params →
  (py_truthy (dict_get data_dict "fields") = false ∧ params = []) ∨
  (py_truthy (dict_get data_dict "fields") = true ∧ ∃ terms, params = [("sort", JStr terms)]).
Proof.
  unfold Sorting.get_query_params. intros Hrun.
  apply bind_Ok in Hrun as (flag & _ & Hrun). rewrite sort_gate_always_open in Hrun.
  destruct (py_truthy (dict_get data_dict "fields")).
  - right. split; [done|]. apply bind_Ok in Hrun as (it & _ & Hrun).
    apply bind_Ok in Hrun as (terms & _ & Hrun). injection Hrun as <-. eauto.
  - left. by injection Hrun as <-.
Qed.

(** X6: whenever the sort builder returns, it returns no parameter if
    [fields] is absent, null or empty, and otherwise the single parameter
    [sort] with a string value: what decides is [fields] alone, and there is
    never more than one parameter. *)
Theorem X6_sort_params_shape `{PyRepr} (data_dict : doc) (params : list param) :
  Sorting.get_query_params data_dict = Ok params →
  (py_truthy (dict_get data_dict "fields") = false ∧ params = []) ∨
  (py_truthy (dict_get data_dict "fields") = true ∧ ∃ terms, params = [("sort", JStr terms)]).
Proof. apply sorting_params_shape. Qed.

(** The two sort fields of the specification's example. *)
Lemma X6_sort_params_witness :
  ∃ terms, Sorting.get_query_params (H := scalar_repr) two_sort_fields = Ok [("sort", JStr terms)].
Proof.
  destruct (X6_sort_params_shape (H := scalar_repr) two_sort_fields
              [("sort", JStr "date desc,score asc")] eq_refl) as [[Hoff _]|[_ [terms Hterms]]].
  - discriminate Hoff.
  - exists terms. by rewrite <- Hterms.
Defined.

(** ** The query of a collection *)



(** X8: the query of a collection as [get_or_create] creates it, whatever
    the template and the extra code: facets switched off with limit 10,
    minimum count 1 and sort by count, no highlighting and no sort. *)
Theorem X8_new_collection_query `{PyRepr} (template extracode : string) :
  Collection.get_query (CollectionManager.new_collection template extracode) =
    Ok [ ("facet", JStr "false"); ("facet.limit", JNum 10);
         ("facet.mincount", JNum 1); ("facet.sort", JStr "count") ].
Proof. reflexivity. Qed.

(** ** More on the merge *)

Section MergeMore.
Context `{JsonLoads}.
Implicit Types (post_data : post) (data : doc) (attrs : list string).

(** A posted text that does not parse stops the loop. *)
Lemma merge_loop_raises post_data attrs data (a text : string) (e0 : exn) :
  a ∈ attrs → post_get post_data a = Some text → json_loads text = Err e0 →
  ∃ e, foldM (merge_attr post_data) data attrs = Err e.
Proof.
  intros Hin Hget Hbad. revert data.
  induction attrs as [|a' attrs IH]; intros data; [by apply elem_of_nil in Hin|].
  simpl. unfold merge_attr at 1.
  destruct (decide (a' = a)) as [->|Hne].
  - rewrite Hget, Hbad. simpl. eauto.
  - apply elem_of_cons in Hin as [->|Hin]; [done|].
    destruct (post_get post_data a') as [t|]; simpl; [|by apply IH].
    destruct (json_loads t); simpl; [by apply IH|eauto].
Qed.

Lemma merge_post_raises post_data attrs data (a text : string) (e0 : exn) :
  a ∈ attrs → post_get post_data a = Some text → json_loads text = Err e0 →
  ∃ e, merge_post attrs post_data data = (data, Err e).
Proof.
  intros Hin Hget Hbad. unfold merge_post.
  destruct (merge_loop_raises post_data attrs data a text e0 Hin Hget Hbad) as [e ->]. eauto.
Qed.

(** An update that posts none of [attrs] stores the document it found. *)
Lemma merge_post_nothing post_data attrs data :
  (∀ a, a ∈ attrs → post_get post_data a = None) →
  merge_post attrs post_data data = (data, Ok ()).
Proof.
  intros Hnone.
  assert (foldM (merge_attr post_data) data attrs = Ok data) as Hrun.
  { induction attrs as [|a attrs IH]; simpl; [done|].
    unfold merge_attr at 1. rewrite Hnone by (apply elem_of_cons; by left). simpl.
    apply IH. intros a' Hin. apply Hnone. apply elem_of_cons; by right. }
  unfold merge_post. by rewrite Hrun.
Qed.

(** Two updates in a row: the later text wins, then the earlier one, then
    what was stored. *)
Lemma merge_post_twice attrs (p1 p2 : post) data d1 d2 (k : string) :
  merge_post attrs p1 data = (d1, Ok ()) →
  merge_post attrs p2 d1 = (d2, Ok ()) →
  d2 !! k =
    match posted attrs p2 k with
    | Some text => parsed text
    | None => match posted attrs p1 k with
              | Some text => parsed text
              | None => data !! k
              end
    end.
Proof.
  unfold merge_post, posted, parsed. intros H1 H2.
  destruct (foldM (merge_attr p1) data attrs) as [d1'|] eqn:Hrun1; [|done].
  destruct (foldM (merge_attr p2) d1 attrs) as [d2'|] eqn:Hrun2; [|done].
  injection H1 as <-. injection H2 as <-.
  by rewrite (merge_lookup _ _ _ _ k Hrun2), (merge_lookup _ _ _ _ k Hrun1).
Qed.
End MergeMore.

(** X9: when the text posted for one of the class's attributes is not valid
    JSON, [update_from_post] raises and the stored document stays as it was,
    also for the attributes whose texts were fine; on [Facet], [Result] and
    [Sorting]. *)
Theorem X9_update_surfaces_parse_errors `{JsonLoads}
    (post_data : post) (data : doc) (a text : string) (e0 : exn) :
  post_get post_data a = Some text →
  json_loads text = Err e0 →
  (a ∈ Facet._ATTRIBUTES → ∃ e, Facet.update_from_post post_data data = (data, Err e)) ∧
  (a ∈ Result._ATTRIBUTES → ∃ e, Result.update_from_post post_data data = (data, Err e)) ∧
  (a ∈ Sorting._ATTRIBUTES → ∃ e, Sorting.update_from_post post_data data = (data, Err e)).
Proof.
  intros Hget Hbad. repeat split; intros Hin; by eapply merge_post_raises.
Qed.

(** A broken [fields] text: [properties] is not stored either. *)
Lemma X9_update_witness :
  Facet.update_from_post (H := loads_literals) broken_update stored_facets
    = (stored_facets, Err ValueError).
Proof.
  destruct (proj1 (X9_update_surfaces_parse_errors (H := loads_literals)
                     broken_update stored_facets "fields" "[1," ValueError eq_refl eq_refl))
    as [e He].
  - apply elem_of_cons; right. apply elem_of_cons; by left.
  - rewrite He. f_equal. vm_compute in He. by injection He as <-.
Defined.

(** X10: an update that posts nothing for the class's attributes (only
    other names, or nulls) returns and stores the document unchanged; on
    [Facet], [Result] and [Sorting]. *)
Theorem X10_update_without_attributes `{JsonLoads} (post_data : post) (data : doc) :
  ((∀ a, a ∈ Facet._ATTRIBUTES → post_get post_data a = None) →
   Facet.update_from_post post_data data = (data, Ok ())) ∧
  ((∀ a, a ∈ Result._ATTRIBUTES → post_get post_data a = None) →
   Result.update_from_post post_data data = (data, Ok ())) ∧
  ((∀ a, a ∈ Sorting._ATTRIBUTES → post_get post_data a = None) →
   Sorting.update_from_post post_data data = (data, Ok ())).
Proof. repeat split; apply merge_post_nothing. Qed.

(** [order] is no attribute of [Sorting]. *)
Lemma X10_update_witness :
  Sorting.update_from_post (H := loads_literals) order_update stored_facets
    = (stored_facets, Ok ()).
Proof.
  apply (X10_update_without_attributes (H := loads_literals) order_update stored_facets).
  intros a Hin.
  repeat (apply elem_of_cons in Hin as [->|Hin]; [reflexivity|]).
  by apply elem_of_nil in Hin.
Defined.

(** X11: after two updates in a row, both returning, an attribute of the
    class holds the value posted by the second update if it posted one, else
    the value posted by the first if it posted one, else what was stored
    before; every other key holds what was stored before.  Stated on
    [Facet]. *)
Theorem X11_later_update_wins `{JsonLoads} (p1 p2 : post) (data d1 d2 : doc) (k : string) :
  Facet.update_from_post p1 data = (d1, Ok ()) →
  Facet.update_from_post p2 d1 = (d2, Ok ()) →
  d2 !! k =
    match posted Facet._ATTRIBUTES p2 k with
    | Some text => parsed text
    | None => match posted Facet._ATTRIBUTES p1 k with
              | Some text => parsed text
              | None => data !! k
              end
    end.
Proof. apply merge_post_twice. Qed.

(** [fields] posted first, [order] second: both are stored. *)
Lemma X11_later_update_witness :
  ∃ d1 d2,
    Facet.update_from_post (H := loads_literals) only_fields stored_facets = (d1, Ok ()) ∧
    Facet.update_from_post (H := loads_literals) order_update d1 = (d2, Ok ()) ∧
    d2 !! "order" = Some (JArr []) ∧ d2 !! "fields" = Some (JArr []) ∧
    d2 !! "ranges" = stored_facets !! "ranges".
Proof.
  eexists _, _. split; [reflexivity|]. split; [reflexivity|].
  split; [|split];
    (erewrite (X11_later_update_wins (H := loads_literals) only_fields order_update);
     [|reflexivity|reflexivity]); reflexivity.
Defined.

(** ** More on the lookups *)

Lemma foldM_raises {A S} (body : S → A → result S) (s : S) (l : list A) (i : nat) (x : A) :
  l !! i = Some x → (∀ s', ∃ e, body s' x = Err e) → ∃ e, foldM body s l = Err e.
Proof.
  revert s i. induction l as [|a l IH]; intros s i Hi Hx; [done|]. simpl.
  destruct i as [|i]; simpl in Hi.
  - injection Hi as ->. destruct (Hx s) as [e ->]. simpl. eauto.
  - destruct (body s a); simpl; [|eauto]. eauto.
Qed.

Lemma scan_no_match (attr : string) (field init : json) (entries : list json) :
  forallb (has_keys ["field"]) entries = true →
  forallb (fun x => negb (matches field x)) entries = true →
  foldM (scan_step attr field) init entries = Ok init.
Proof.
  induction entries as [|e entries IH]; simpl; [done|].
  intros [He Hwf]%andb_true_iff [Hne Hno]%andb_true_iff.
  destruct (has_keys_getitem _ _ "field" He) as [f Hf]; [repeat constructor|].
  unfold scan_step at 1. unfold matches in Hne. rewrite Hf in *. simpl.
  apply negb_true_iff in Hne. rewrite Hne. simpl. by apply IH.
Qed.

(** X12: a lookup falls back to the field itself as label and to the empty
    string as uuid in two cases.  For a kind other than [field], [range] and
    [date] it does so without reading the configuration.  For one of the
    three kinds it does so when every entry of the list has a [field] and
    none equals the field looked up; the entries need no [label] and no
    [uuid] for that. *)
Theorem X12_lookup_falls_back (field : json) (facets : doc) :
  (∀ type, type ≠ "field" → type ≠ "range" → type ≠ "date" →
     get_facet_field_label field type facets = Ok field ∧
     get_facet_field_uuid field type facets = Ok (JStr "")) ∧
  (∀ kind entries,
     facets !! kind_entries kind = Some (JArr entries) →
     forallb (has_keys ["field"]) entries = true →
     forallb (fun x => negb (matches field x)) entries = true →
     get_facet_field_label field (kind_name kind) facets = Ok field ∧
     get_facet_field_uuid field (kind_name kind) facets = Ok (JStr "")).
Proof.
  split.
  - intros type H1 H2 H3. unfold get_facet_field_label, get_facet_field_uuid.
    apply String.eqb_neq in H1, H2, H3. by rewrite H1, H2, H3.
  - intros kind entries Hsub Hwf Hno.
    destruct (lookups_scan kind field facets entries Hsub) as [-> ->].
    by rewrite !scan_no_match.
Qed.

(** A field that [two_fields] does not list, and an unknown kind. *)
Lemma X12_lookup_witness :
  get_facet_field_label (JStr "lang") "query" ∅ = Ok (JStr "lang") ∧
  get_facet_field_uuid (JStr "size") "field" two_fields = Ok (JStr "").
Proof.
  split.
  - by apply (proj1 (X12_lookup_falls_back (JStr "lang") ∅) "query").
  - exact (proj2 (proj2 (X12_lookup_falls_back (JStr "size") two_fields) KField _
                    eq_refl eq_refl eq_refl)).
Defined.

(** X13: the lookups raise on a damaged configuration.  If the list of the
    kind is missing they raise [KeyError] with the name of the list.  If the
    list holds, anywhere, a dictionary without [field] they raise whatever
    field is looked up, since the scan visits every entry. *)
Theorem X13_lookup_raises_on_damage (field : json) (kind : facet_kind) (facets : doc) :
  (facets !! kind_entries kind = None →
   get_facet_field_label field (kind_name kind) facets = Err (KeyError (JStr (kind_entries kind))) ∧
   get_facet_field_uuid field (kind_name kind) facets = Err (KeyError (JStr (kind_entries kind)))) ∧
  (∀ entries i items,
     facets !! kind_entries kind = Some (JArr entries) →
     entries !! i = Some (JObj items) →
     assoc "field" items = None →
     (∃ e, get_facet_field_label field (kind_name kind) facets = Err e) ∧
     (∃ e, get_facet_field_uuid field (kind_name kind) facets = Err e)).
Proof.
  split.
  - intros Hnone. unfold get_facet_field_label, get_facet_field_uuid, dict_getitem.
    by destruct kind; simpl in *; rewrite Hnone.
  - intros entries i items Hsub Hi Hnone.
    destruct (lookups_scan kind field facets entries Hsub) as [-> ->].
    split; eapply foldM_raises; try exact Hi; intros s'; unfold scan_step; simpl;
      rewrite Hnone; simpl; eauto.
Qed.

(** [damaged_config] has no [dates] and an incomplete range entry. *)
Lemma X13_lookup_witness :
  get_facet_field_label (JStr "day") "date" damaged_config = Err (KeyError (JStr "dates")) ∧
  ∃ e, get_facet_field_uuid (JStr "price") "range" damaged_config = Err e.
Proof.
  split.
  - exact (proj1 (proj1 (X13_lookup_raises_on_damage (JStr "day") KDate damaged_config) eq_refl)).
  - exact (proj2 (proj2 (X13_lookup_raises_on_damage (JStr "price") KRange damaged_config)
                    _ 1 _ eq_refl eq_refl eq_refl)).
Defined.

(** ** More on the normalisation *)

(** What is stored under [normalized_facets] when the function is called
    does not matter. *)
Lemma augment_after_setitem (response : loc) (facets : doc) (h : heap) (v : json) :
  augment_solr_response response facets (setitem response "normalized_facets" v h)
    = augment_solr_response response facets h.
Proof. unfold augment_solr_response. by rewrite setitem_setitem. Qed.

(** The heap after the call, in every outcome. *)
Lemma augment_heap (response : loc) (facets : doc) (h : heap) :
  ∃ out, (augment_solr_response response facets h).1
           = setitem response "normalized_facets" (JArr out) h ∧
         (∀ e, (augment_solr_response response facets h).2 = Err e → out = []).
Proof.
  unfold augment_solr_response.
  destruct (collect_facets _ facets) as [[nf df]|e]; simpl.
  - destruct (py_iter _) as [order|e]; simpl.
    + eexists. rewrite setitem_setitem. split; [done|]. discriminate.
    + by exists [].
  - by exists [].
Qed.

(** X14: normalising a response that was already normalised changes
    nothing: a second call on the heap the first call left gives the same
    heap and the same outcome. *)
Theorem X14_augment_idempotent (response : loc) (facets : doc) (h : heap) :
  augment_solr_response response facets (augment_solr_response response facets h).1
    = augment_solr_response response facets h.
Proof.
  destruct (augment_heap response facets h) as (out & -> & _).
  apply augment_after_setitem.
Qed.

(** X15: when the normalisation raises, whatever the exception, the
    response is left with [normalized_facets] set to the empty list and is
    otherwise as it was. *)
Theorem X15_augment_raises_with_empty_list (response : loc) (facets : doc) (h : heap) (e : exn) :
  (augment_solr_response response facets h).2 = Err e →
  (augment_solr_response response facets h).1
    = setitem response "normalized_facets" (JArr []) h.
Proof.
  intros He. destruct (augment_heap response facets h) as (out & -> & Hout).
  by rewrite (Hout e He).
Qed.

(** The response with field facets only, normalised under a configuration
    without the [fields] list. *)
Lemma X15_augment_witness :
  (augment_solr_response 0 damaged_config {[ 0 := fields_only_response ]}).1
    = {[ 0 := <["normalized_facets" := JArr []]> fields_only_response ]}.
Proof.
  assert ((augment_solr_response 0 damaged_config {[ 0 := fields_only_response ]}).2
            = Err (KeyError (JStr "facet_ranges"))) as Hraised by (vm_compute; reflexivity).
  rewrite (X15_augment_raises_with_empty_list 0 damaged_config {[ 0 := fields_only_response ]}
             (KeyError (JStr "facet_ranges")) Hraised).
  unfold setitem. rewrite lookup_total_singleton. apply insert_singleton_eq.
Defined.

Lemma collect_facets_reads_counts (d1 d2 facets : doc) (v : json) :
  d1 !! "facet_counts" = d2 !! "facet_counts" →
  collect_facets (<["normalized_facets" := v]> d1) facets
    = collect_facets (<["normalized_facets" := v]> d2) facets.
Proof.
  intros Hsame. unfold collect_facets, doc_truthy, dict_get, dict_getitem.
  rewrite !lookup_insert_ne by done. rewrite Hsame.
  assert (∀ d : doc, size (<["normalized_facets" := v]> d) ≠ 0) as Hsize.
  { intros d Hz. apply map_size_empty_inv in Hz. by apply insert_non_empty in Hz. }
  pose proof (Hsize d1). pose proof (Hsize d2).
  by destruct (size (<["normalized_facets" := v]> d1)), (size (<["normalized_facets" := v]> d2)).
Qed.

(** X16: of the response, the normalisation reads [facet_counts] and
    nothing else: two responses with the same [facet_counts] get the same
    [normalized_facets] and the same outcome, whatever their other keys
    hold. *)
Theorem X16_augment_reads_facet_counts_only (r1 r2 : loc) (facets : doc) (h1 h2 : heap) :
  (h1 !!! r1) !! "facet_counts" = (h2 !!! r2) !! "facet_counts" →
  ((augment_solr_response r1 facets h1).1 !!! r1) !! "normalized_facets"
    = ((augment_solr_response r2 facets h2).1 !!! r2) !! "normalized_facets" ∧
  (∀ e, (augment_solr_response r1 facets h1).2 = Err e ↔
        (augment_solr_response r2 facets h2).2 = Err e).
Proof.
  intros Hsame. unfold augment_solr_response. rewrite !setitem_lookup.
  rewrite (collect_facets_reads_counts _ _ facets (JArr []) Hsame).
  destruct (collect_facets _ facets) as [[nf df]|e]; simpl.
  - destruct (py_iter _) as [order|e]; simpl.
    + rewrite !setitem_setitem, !setitem_lookup, !lookup_insert_eq. split; [done|].
      intros e. split; discriminate.
    + rewrite !setitem_lookup, !lookup_insert_eq. split; [done|]. intros e'. split; congruence.
  - rewrite !setitem_lookup, !lookup_insert_eq. split; [done|]. intros e'. split; congruence.
Qed.

(** The same facets under another header. *)
Lemma X16_augment_witness :
  ((augment_solr_response 0 ordered_config {[ 0 := faceted_response ]}).1 !!! 0)
      !! "normalized_facets"
    = ((augment_solr_response 1 ordered_config
          {[ 1 := <["responseHeader" := JObj [("status", JNum 0)]]> faceted_response ]}).1 !!! 1)
        !! "normalized_facets".
Proof.
  apply (X16_augment_reads_facet_counts_only 0 1 ordered_config).
  reflexivity.
Defined.

Lemma keyed_Some (k : pykey) (recs : list record) (facet : json) :
  keyed k recs = Some facet →
  ∃ uuid, (facet, uuid) ∈ recs ∧ hash_key uuid = Some k ∧ is_default (facet, uuid) = false.
Proof.
  unfold keyed. destruct (find _ (rev recs)) as [[f u]|] eqn:Hfind; [|done].
  intros [= <-]. apply find_some in Hfind as [Hin Hp].
  apply andb_true_iff in Hp as [Hd Hk]. apply negb_true_iff in Hd.
  apply bool_decide_eq_true in Hk. exists u. split; [|done].
  apply list_elem_of_In. by apply in_rev.
Qed.

Lemma ordered_length (order : list json) (recs : list record) :
  length (ordered order recs) ≤ length order.
Proof.
  unfold ordered, omap. induction order as [|u order IH]; simpl; [done|].
  destruct (hash_key u ≫= _); simpl; lia.
Qed.

(** X17: every facet of the final [normalized_facets] was built from the
    response: it is a record whose uuid is empty, or a record whose uuid is
    listed in the configuration's [order].  A facet with a uuid that [order]
    does not list is left out, and the list has at most as many items as
    [order] has uuids and the response has facets. *)
Theorem X17_shown_facets_are_listed_or_default (response : loc) (facets : doc) (h : heap)
    (d : doc) (recs : list record) (order : list json) :
  h !! response = Some d →
  discovered d facets = Ok recs →
  Forall (fun r => is_Some (hash_key r.2)) recs →
  dict_get_default facets "order" (JArr []) = JArr order →
  ∃ out,
    augment_solr_response response facets h
      = (<[response := <["normalized_facets" := JArr out]> d]> h, Ok response) ∧
    (∀ facet, facet ∈ out →
       ∃ uuid, (facet, uuid) ∈ recs ∧
         (is_default (facet, uuid) = true ∨ ∃ o, o ∈ order ∧ hash_key o = hash_key uuid)) ∧
    length out ≤ length order + length recs.
Proof.
  intros Hd Hrecs Hhash Horder. eexists. split; [by apply augment_of_records|]. split.
  - intros facet [Hin|Hin]%elem_of_app.
    + unfold ordered in Hin. apply list_elem_of_omap in Hin as (o & Ho & Hfacet).
      destruct (hash_key o) as [k|] eqn:Hk; [|done]. simpl in Hfacet.
      apply keyed_Some in Hfacet as (uuid & Hrec & Hkey & _).
      exists uuid. split; [done|]. right. exists o. split; [done|]. congruence.
    + unfold defaults in Hin. apply list_elem_of_In, in_map_iff in Hin as ([f u] & <- & Hin).
      apply filter_In in Hin as [Hin Hdef]. exists u. split; [by apply list_elem_of_In|by left].
  - rewrite length_app. pose proof (ordered_length order recs). unfold defaults.
    rewrite length_map. pose proof (filter_length_le is_default recs). lia.
Qed.

(** On the example of the specification, three facets are shown. *)
Lemma X17_shown_facets_witness :
  ∃ out,
    augment_solr_response 0 ordered_config {[ 0 := faceted_response ]}
      = (<[0 := <["normalized_facets" := JArr out]> faceted_response]> {[ 0 := faceted_response ]},
         Ok 0) ∧
    length out ≤ 2 + 3.
Proof.
  destruct (X17_shown_facets_are_listed_or_default 0 ordered_config {[ 0 := faceted_response ]}
              faceted_response _ [JStr "u2"; JStr "u1"] (lookup_singleton_eq _ _) eq_refl)
    as (out & Hrun & _ & Hlen).
  - simpl. repeat (constructor; [by eexists|]). constructor.
  - reflexivity.
  - exists out. split; [exact Hrun|exact Hlen].
Defined.

Lemma assoc_NoDup {A} (items : list (string * A)) (k : string) (v : A) :
  NoDup (map fst items) → (k, v) ∈ items → assoc k items = Some v.
Proof.
  induction items as [|[k' v'] items IH]; simpl; intros Hnd Hin; [by apply elem_of_nil in Hin|].
  apply NoDup_cons in Hnd as [Hfresh Hnd].
  apply elem_of_cons in Hin as [[= -> ->]|Hin]; [by rewrite String.eqb_refl|].
  destruct (String.eqb k k') eqn:Heq; [|by apply IH].
  apply String.eqb_eq in Heq as ->. destruct Hfresh.
  apply list_elem_of_In. apply list_elem_of_In in Hin. by apply (in_map fst _ (k', v)).
Qed.

Lemma ordered_all_default (order : list json) (recs : list record) :
  forallb is_default recs = true → ordered order recs = [].
Proof.
  intros Hall.
  assert (∀ k, keyed k recs = None) as Hkeyed.
  { intros k. unfold keyed. destruct (find _ (rev recs)) as [r|] eqn:Hfind; [|done].
    apply find_some in Hfind as [Hin Hp]. apply in_rev in Hin.
    rewrite forallb_forall in Hall. rewrite (Hall r Hin) in Hp. done. }
  unfold ordered, omap. induction order as [|u order IH]; simpl; [done|].
  destruct (hash_key u) as [k|]; simpl; [by rewrite Hkeyed|done].
Qed.

(** The field facets of a response under a configuration that knows none of
    them. *)
Lemma unconfigured_records (facets : doc) (entries : list json) (items l : list (string * json)) :
  facets !! "fields" = Some (JArr entries) →
  forallb (has_keys ["field"]) entries = true →
  (∀ kv, kv ∈ l → forallb (fun x => negb (matches (JStr kv.1) x)) entries = true) →
  (∀ kv, kv ∈ l → assoc kv.1 items = Some kv.2) →
  mapM (field_facet (JObj items) facets) (map (fun kv => JStr kv.1) l)
    = Ok (map (fun kv => (unconfigured_facet kv, JStr "")) l).
Proof.
  intros Hsub Hwf Hno Hitems. induction l as [|kv l IH]; simpl; [done|].
  rewrite IH.
  2:{ intros kv' Hin. apply Hno. apply elem_of_cons; by right. }
  2:{ intros kv' Hin. apply Hitems. apply elem_of_cons; by right. }
  unfold field_facet.
  destruct (lookups_scan KField (JStr kv.1) facets entries Hsub) as [Hlabel Huuid].
  simpl in Hlabel, Huuid. rewrite Hlabel, Huuid.
  rewrite !scan_no_match by (try done; apply Hno; apply elem_of_cons; by left).
  simpl. rewrite (Hitems kv) by (apply elem_of_cons; by left). done.
Qed.

(** X18: field facets that the configuration does not know are all shown,
    in the order of the response, each labelled with its own field name and
    with the counts of the engine.  Stated for a response with field facets
    only (range and date facets empty), distinct facet names, and a list
    [fields] whose entries have a [field] different from every facet name;
    this is the case of a new collection, whose lists are empty. *)
Theorem X18_unconfigured_field_facets (response : loc) (facets : doc) (h : heap) (d : doc)
    (counts items : list (string * json)) (entries order : list json) (ranges dates : json) :
  h !! response = Some d →
  d !! "facet_counts" = Some (JObj counts) →
  assoc "facet_fields" counts = Some (JObj items) →
  assoc "facet_ranges" counts = Some ranges → py_truthy ranges = false →
  assoc "facet_dates" counts = Some dates → py_truthy dates = false →
  NoDup (map fst items) →
  facets !! "fields" = Some (JArr entries) →
  forallb (has_keys ["field"]) entries = true →
  (∀ kv, kv ∈ items → forallb (fun x => negb (matches (JStr kv.1) x)) entries = true) →
  dict_get_default facets "order" (JArr []) = JArr order →
  augment_solr_response response facets h =
    (<[response := <["normalized_facets" := JArr (map unconfigured_facet items)]> d]> h,
     Ok response).
Proof.
  intros Hd Hcounts Hff Hfr Hrf Hfd Hdf Hnd Hsub Hwf Hno Horder.
  rewrite (augment_of_records response facets h d
             (map (fun kv => (unconfigured_facet kv, JStr "")) items) order Hd); [| |  |done].
  - assert (forallb is_default (map (fun kv => (unconfigured_facet kv, JStr "")) items) = true
            ∧ defaults (map (fun kv => (unconfigured_facet kv, JStr "")) items)
              = map unconfigured_facet items) as [Hall ->].
    { clear. unfold defaults. induction items as [|kv items [IH1 IH2]]; simpl; [done|].
      split; [done|]. by rewrite IH2. }
    by rewrite ordered_all_default.
  - unfold discovered, dict_get. rewrite Hcounts. simpl.
    assert (py_truthy (JObj counts) = true) as Htruthy by (by destruct counts).
    simpl in Htruthy. rewrite Htruthy, Hff, Hfr, Hfd. simpl.
    unfold category_records at 2 3. rewrite Hrf, Hdf. simpl.
    unfold category_records. destruct items as [|kv items]; simpl py_truthy; cbv iota.
    + done.
    + simpl py_iter. cbn [bind].
      change (JStr kv.1 :: map (fun kv0 : string * json => JStr kv0.1) items)
        with (map (fun kv0 : string * json => JStr kv0.1) (kv :: items)).
      rewrite (unconfigured_records facets entries (kv :: items) (kv :: items) Hsub Hwf Hno).
      * simpl. by rewrite app_nil_r.
      * intros [k v] Hin. by apply assoc_NoDup.
  - apply Forall_forall. intros r Hin. apply list_elem_of_In, in_map_iff in Hin as (kv & <- & _).
    by eexists.
Qed.

(** The field facets of the engine under the configuration of a new
    collection. *)
Lemma X18_unconfigured_witness :
  augment_solr_response 0 CollectionManager.new_facets {[ 0 := field_facets_response ]} =
    ({[ 0 := <["normalized_facets" :=
                 JArr [ JObj [("field", JStr "lang"); ("type", JStr "field"); ("label", JStr "lang");
                              ("counts", JArr [JStr "en"; JNum 7; JStr "fr"; JNum 2])];
                        JObj [("field", JStr "tag"); ("type", JStr "field"); ("label", JStr "tag");
                              ("counts", JArr [JStr "news"; JNum 5])] ]]> field_facets_response ]},
     Ok 0).
Proof.
  rewrite (X18_unconfigured_field_facets 0 CollectionManager.new_facets
             {[ 0 := field_facets_response ]} field_facets_response
             _ [ ("lang", JArr [JStr "en"; JNum 7; JStr "fr"; JNum 2]);
                 ("tag", JArr [JStr "news"; JNum 5]) ] [] [] (JObj []) (JObj [])
             (lookup_singleton_eq _ _) eq_refl eq_refl eq_refl eq_refl eq_refl eq_refl).
  - by rewrite insert_singleton_eq.
  - apply (bool_decide_unpack _). by vm_compute.
  - reflexivity.
  - reflexivity.
  - done.
  - reflexivity.
Defined.

Lemma flatten_counts_buckets (items : list (string * json)) :
  flatten_counts items = flat_map (fun kv => [JStr kv.1; kv.2]) (List.filter is_bucket items).
Proof.
  unfold flatten_counts. induction items as [|[k v] items IH]; simpl; [done|].
  rewrite IH. unfold is_bucket. simpl.
  by destruct (String.eqb k "start" || String.eqb k "end" || String.eqb k "gap").
Qed.

(** X19: the record of a date facet copies [start], [end] and [gap] from the
    engine's dictionary for the field, and its [counts] list holds, for each
    other item of that dictionary in order, the date followed by its count;
    the three reserved keys never appear among the dates.  The label and the
    uuid are those the lookups return. *)
Theorem X19_date_facet_record (facet_dates cat : json) (facets : doc)
    (items : list (string * json)) (start end_ gap label uuid : json) :
  py_getitem facet_dates cat = Ok (JObj items) →
  assoc "start" items = Some start →
  assoc "end" items = Some end_ →
  assoc "gap" items = Some gap →
  get_facet_field_label cat "date" facets = Ok label →
  get_facet_field_uuid cat "date" facets = Ok uuid →
  date_facet facet_dates facets cat =
    Ok (JObj [ ("field", cat); ("type", JStr "date"); ("label", label);
               ("start", start); ("end", end_); ("gap", gap);
               ("counts", JArr (flat_map (fun kv => [JStr kv.1; kv.2])
                                  (List.filter is_bucket items))) ],
        uuid).
Proof.
  intros Hd Hs He Hg Hl Hu. unfold date_facet.
  rewrite Hl, Hd. simpl. rewrite Hs, He, Hg. simpl. rewrite Hu. simpl.
  by rewrite flatten_counts_buckets.
Qed.

(** The date facet of [created_at] under [two_ranges]. *)
Lemma X19_date_facet_witness :
  date_facet (JObj [("created_at", created_at_counts)]) two_ranges (JStr "created_at") =
    Ok (JObj [ ("field", JStr "created_at"); ("type", JStr "date"); ("label", JStr "Created");
               ("start", JStr "2013-01-01T00:00:00Z"); ("end", JStr "2013-01-03T00:00:00Z");
               ("gap", JStr "+1DAY");
               ("counts", JArr [ JStr "2013-01-01T00:00:00Z"; JNum 4;
                                 JStr "2013-01-02T00:00:00Z"; JNum 0 ]) ],
        JStr "u1").
Proof.
  exact (X19_date_facet_record (JObj [("created_at", created_at_counts)]) (JStr "created_at")
           two_ranges _ _ _ _ _ _ eq_refl eq_refl eq_refl eq_refl eq_refl eq_refl).
Defined.

Lemma keyed_last (k : pykey) (before after : list record) (facet uuid : json) :
  hash_key uuid = Some k →
  is_default (facet, uuid) = false →
  forallb (fun r => is_default r || negb (bool_decide (hash_key r.2 = Some k))) after = true →
  keyed k (before ++ (facet, uuid) :: after) = Some facet.
Proof.
  intros Hk Hd Hafter. unfold keyed. rewrite rev_app_distr. simpl. rewrite <- app_assoc.
  rewrite find_app_None.
  - simpl. rewrite Hd, Hk. simpl. by rewrite bool_decide_eq_true_2.
  - rewrite forallb_rev. clear -Hafter.
    induction after as [|r after IH]; simpl in *; [done|].
    apply andb_true_iff in Hafter as [Hr Hafter]. rewrite (IH Hafter), andb_true_r.
    by destruct (is_default r), (bool_decide (hash_key r.2 = Some k)).
Qed.

(** X20: when several facets of a response resolve to the same uuid, the
    one discovered last takes the place of the others: for an [order] that
    lists the uuid once, [normalized_facets] holds that facet once, followed
    by the default facets, and the facets discovered before under the same
    uuid are not shown. *)
Theorem X20_last_facet_of_a_uuid_wins (response : loc) (facets : doc) (h : heap) (d : doc)
    (before after : list record) (facet uuid o : json) (k : pykey) :
  h !! response = Some d →
  discovered d facets = Ok (before ++ (facet, uuid) :: after) →
  Forall (fun r => is_Some (hash_key r.2)) (before ++ (facet, uuid) :: after) →
  dict_get_default facets "order" (JArr []) = JArr [o] →
  hash_key o = Some k →
  hash_key uuid = Some k →
  is_default (facet, uuid) = false →
  forallb (fun r => is_default r || negb (bool_decide (hash_key r.2 = Some k))) after = true →
  augment_solr_response response facets h =
    (<[response := <["normalized_facets" :=
                       JArr (facet :: defaults (before ++ (facet, uuid) :: after))]> d]> h,
     Ok response).
Proof.
  intros Hd Hrecs Hhash Horder Ho Hu Hdef Hafter.
  rewrite (augment_of_records response facets h d _ [o] Hd Hrecs Hhash Horder).
  unfold ordered. simpl. rewrite Ho. simpl.
  by rewrite (keyed_last k before after facet uuid Hu Hdef Hafter).
Qed.

(** The range [price] hides the field [tag], which has the same uuid. *)
Lemma X20_last_facet_witness :
  augment_solr_response 0 shared_uuid_config {[ 0 := shared_uuid_response ]} =
    ({[ 0 := <["normalized_facets" :=
                 JArr [ JObj [ ("field", JStr "price"); ("type", JStr "range");
                               ("label", JStr "Price"); ("counts", JArr [JStr "0"; JNum 3]);
                               ("start", JNum 0); ("end", JNum 50); ("gap", JNum 5) ] ]]>
               shared_uuid_response ]},
     Ok 0).
Proof.
  rewrite (X20_last_facet_of_a_uuid_wins 0 shared_uuid_config {[ 0 := shared_uuid_response ]}
             shared_uuid_response
             [(facet_of "tag" "Tag" [JStr "news"; JNum 5], JStr "u1")] []
             (JObj [ ("field", JStr "price"); ("type", JStr "range");
                     ("label", JStr "Price"); ("counts", JArr [JStr "0"; JNum 3]);
                     ("start", JNum 0); ("end", JNum 50); ("gap", JNum 5) ])
             (JStr "u1") (JStr "u1") (KStr "u1") (lookup_singleton_eq _ _) eq_refl).
  - by rewrite insert_singleton_eq.
  - repeat (constructor; [by eexists|]). constructor.
  - reflexivity.
  - reflexivity.
  - reflexivity.
  - reflexivity.
  - reflexivity.
Defined.
